(** * GUI handles of the viser visualizer: [src/viser/_gui.py]

    A shallow embedding of [_GuiHandleState], [GuiHandle] and
    [GuiSelectHandle], and the properties of their methods: what each call
    appends to the outbound message queue, what it stores in the handle
    state, and which callbacks it runs.

    Python values are modelled by inductive types, dictionaries by stdpp's
    [gmap], floats by the kernel's binary64 floats, and the methods by
    functions in a state-and-exception monad over the handle state, the
    message queue of the [MessageApi] and the wall clock. *)

From Stdlib Require Import ZArith Floats.
From stdpp Require Import gmap strings list.

#[local] Set Warnings "-register-all".

(** ** Python values *)

(** The values a GUI input holds (the type parameter [T] of
    [_GuiHandleState]): booleans (buttons, checkboxes), integers and floats
    (numbers, sliders), strings (text, select) and tuples (vectors, colours). *)
Inductive pyval :=
| VBool (b : bool)
| VInt (z : Z)
| VFloat (f : float)
| VStr (s : string)
| VTuple (items : list pyval).

(** [type(v)] for such a value. *)
Inductive pytype := TBool | TInt | TFloat | TStr | TTuple.

Definition type_of (v : pyval) : pytype :=
  match v with
  | VBool _ => TBool
  | VInt _ => TInt
  | VFloat _ => TFloat
  | VStr _ => TStr
  | VTuple _ => TTuple
  end.

(** [Any]: what a Leva configuration entry or an encoded message value may
    be. Besides the values above: [None], lists (the options of a select) and
    string-keyed dictionaries (the nested ["settings"] of a button). *)
Inductive pyany :=
| ANone
| AVal (v : pyval)
| AList (items : list pyany)
| ADict (d : gmap string pyany).

(** The exceptions the modelled code can raise. [Exception] stands for
    whatever a user callback raises. *)
Inductive exn :=
| AssertionError
| TypeError
| ValueError
| OverflowError
| KeyError (key : string)
| IndexError
| Exception (what : string).

Inductive result (A : Type) :=
| Ok (a : A)
| Err (e : exn).
Arguments Ok {A} a.
Arguments Err {A} e.

(** ** numpy arrays *)

(** An element of a numeric array. *)
Inductive npscalar :=
| NpFloat (f : float)
| NpInt (z : Z)
| NpBool (b : bool).

(** [onp.ndarray]: the shape and the elements in row-major order. For a
    1-dimensional array, [data] is the sequence iteration yields. *)
Record ndarray := {
  shape : list nat;
  data : list npscalar;
}.

(** ** Conversions of the Python runtime *)

(** [float(z)] for an integer: rounded to the nearest binary64 (ties to
    even); [OverflowError] when the result is not finite. *)
Definition float_of_int (z : Z) : result float :=
  let f := SF2Prim (binary_normalize prec emax z 0 false) in
  if is_infinity f then Err OverflowError else Ok f.

(** [int(f)] for a float: truncation toward zero; [ValueError] on NaN and
    [OverflowError] on an infinity. *)
Definition int_of_float (f : float) : result Z :=
  match Prim2SF f with
  | S754_zero _ => Ok 0%Z
  | S754_infinity _ => Err OverflowError
  | S754_nan => Err ValueError
  | S754_finite sign m e =>
      let magnitude := Z.shiftl (Zpos m) e in
      Ok (if sign then (- magnitude)%Z else magnitude)
  end.

Definition float_of_bool (b : bool) : float :=
  if b then 1%float else 0%float.

(** [float(x)] for an element of a numeric array; an [int64] element is
    always in range. *)
Definition float_of_npscalar (x : npscalar) : float :=
  match x with
  | NpFloat f => f
  | NpInt z => SF2Prim (binary_normalize prec emax z 0 false)
  | NpBool b => float_of_bool b
  end.

(** [bool(v)]: the truth value. *)
Definition truthy (v : pyval) : bool :=
  match v with
  | VBool b => b
  | VInt z => negb (z =? 0)%Z
  | VFloat f => negb (f =? 0)%float
  | VStr s => negb (String.eqb s "")
  | VTuple items => match items with [] => false | _ :: _ => true end
  end.

(** The text conversions of the runtime are an interface: [str(v)] of a value
    that is not a string (its printed form), and the parsers behind
    [float(s)] and [int(s)] ([None]: the string does not parse,
    [ValueError]). *)
Class PyText := {
  py_str : pyval -> string;
  py_float_of_str : string -> option float;
  py_int_of_str : string -> option Z;
}.

Definition chars_of (s : string) : list pyval :=
  (fun c => VStr (String c EmptyString)) <$> String.list_ascii_of_string s.

(** [T(v)]: the call [type(self._impl.value)(value)] of [set_value], by the
    type [T] of the stored value. *)
Definition construct `{PyText} (T : pytype) (v : pyval) : result pyval :=
  match T with
  | TBool => Ok (VBool (truthy v))
  | TInt =>
      match v with
      | VBool b => Ok (VInt (if b then 1 else 0))
      | VInt z => Ok (VInt z)
      | VFloat f =>
          match int_of_float f with Ok z => Ok (VInt z) | Err e => Err e end
      | VStr s =>
          match py_int_of_str s with
          | Some z => Ok (VInt z)
          | None => Err ValueError
          end
      | VTuple _ => Err TypeError
      end
  | TFloat =>
      match v with
      | VBool b => Ok (VFloat (float_of_bool b))
      | VInt z =>
          match float_of_int z with Ok f => Ok (VFloat f) | Err e => Err e end
      | VFloat f => Ok (VFloat f)
      | VStr s =>
          match py_float_of_str s with
          | Some f => Ok (VFloat f)
          | None => Err ValueError
          end
      | VTuple _ => Err TypeError
      end
  | TStr => Ok (VStr (match v with VStr s => s | _ => py_str v end))
  | TTuple =>
      match v with
      | VStr s => Ok (VTuple (chars_of s))
      | VTuple items => Ok (VTuple items)
      | VBool _ | VInt _ | VFloat _ => Err TypeError
      end
  end.

(** The first statement of [set_value], on its argument of type
    [Union[T, onp.ndarray]]. An array must have at most one dimension (the
    assertion; assertions are taken as enabled). Then
    [tuple(map(float, value))]: an array without dimension cannot be iterated
    ([TypeError]), the elements of a 1-dimensional one become floats. *)
Definition normalize (arg : pyval + ndarray) : result pyval :=
  match arg with
  | inr a =>
      if bool_decide (length (shape a) ≤ 1) then
        match shape a with
        | [] => Err TypeError
        | _ :: _ => Ok (VTuple ((fun x => VFloat (float_of_npscalar x)) <$> data a))
        end
      else Err AssertionError
  | inl v => Ok v
  end.

(** [x in options] for a list of strings: only a string equals a string. *)
Definition py_in (x : pyany) (options : list string) : bool :=
  match x with
  | AVal (VStr s) => bool_decide (s ∈ options)
  | _ => false
  end.

(** ** The handle state *)

(** A Python callable stored in the state, by identity. What running it does
    is given by the environment [run_cb] below. *)
Definition callable := nat.

(** [_GuiHandleState]. The field [api] is a reference to the [MessageApi];
    its queue is the [outbox] of [PyState]. *)
Record _GuiHandleState := {
  name : string;
  typ : pytype;
  value : pyval;
  last_updated : float;
  folder_labels : list string;
  update_cb : list callable;
  leva_conf : gmap string pyany;
  is_button : bool;
  sync_cb : option callable;
  cleanup_cb : option callable;
  encoder : pyval -> pyany;
  decoder : pyany -> pyval;
}.

Definition with_value (v : pyval) (i : _GuiHandleState) : _GuiHandleState :=
  {| name := name i; typ := typ i; value := v;
     last_updated := last_updated i; folder_labels := folder_labels i;
     update_cb := update_cb i; leva_conf := leva_conf i;
     is_button := is_button i; sync_cb := sync_cb i;
     cleanup_cb := cleanup_cb i; encoder := encoder i; decoder := decoder i |}.

Definition with_last_updated (t : float) (i : _GuiHandleState) : _GuiHandleState :=
  {| name := name i; typ := typ i; value := value i;
     last_updated := t; folder_labels := folder_labels i;
     update_cb := update_cb i; leva_conf := leva_conf i;
     is_button := is_button i; sync_cb := sync_cb i;
     cleanup_cb := cleanup_cb i; encoder := encoder i; decoder := decoder i |}.

Definition with_update_cb (l : list callable) (i : _GuiHandleState) : _GuiHandleState :=
  {| name := name i; typ := typ i; value := value i;
     last_updated := last_updated i; folder_labels := folder_labels i;
     update_cb := l; leva_conf := leva_conf i;
     is_button := is_button i; sync_cb := sync_cb i;
     cleanup_cb := cleanup_cb i; encoder := encoder i; decoder := decoder i |}.

Definition with_leva_conf (c : gmap string pyany) (i : _GuiHandleState) : _GuiHandleState :=
  {| name := name i; typ := typ i; value := value i;
     last_updated := last_updated i; folder_labels := folder_labels i;
     update_cb := update_cb i; leva_conf := c;
     is_button := is_button i; sync_cb := sync_cb i;
     cleanup_cb := cleanup_cb i; encoder := encoder i; decoder := decoder i |}.

(** Modelled from the spec: the message classes of [viser._messages], which
    [_gui.py] imports and this development does not have. Section 6 of the
    specification gives their fields: SetValue ([name], encoded value),
    SetDisplayConfig ([name], config), SetHidden ([name], [hidden]) and
    Remove ([name]). A [GuiSetLevaConfMessage] is built from a reference to the
    dictionary of the handle; the constructor holds its content when the
    message is queued. *)
Inductive Message :=
| GuiRemoveMessage (name : string)
| GuiSetHiddenMessage (name : string) (hidden : bool)
| GuiSetLevaConfMessage (name : string) (leva_conf : gmap string pyany)
| GuiSetValueMessage (name : string) (value : pyany).

Definition is_set_value (m : Message) : bool :=
  match m with GuiSetValueMessage _ _ => true | _ => false end.

(** What the Python code of one handle can read and write: the state behind
    the handle, the queue of its [MessageApi], the reading [time.time()]
    gives, and the rest of the application ([app_state]), which only callbacks
    touch. *)
Record PyState (App : Type) := {
  _impl : _GuiHandleState;
  outbox : list Message;
  clock : float;
  app_state : App;
}.
Arguments _impl {App} _.
Arguments outbox {App} _.
Arguments clock {App} _.
Arguments app_state {App} _.

Definition with_impl {App} (i : _GuiHandleState) (s : PyState App) : PyState App :=
  {| _impl := i; outbox := outbox s; clock := clock s; app_state := app_state s |}.

Definition with_outbox {App} (q : list Message) (s : PyState App) : PyState App :=
  {| _impl := _impl s; outbox := q; clock := clock s; app_state := app_state s |}.

(** A call of a stored callable, as the methods make them: an update callback
    with the value [get_value()] of the handle it is passed gave at that
    moment, or the cleanup callback. *)
Inductive call :=
| CallUpdate (cb : callable) (seen : pyval)
| CallCleanup (cb : callable).

(** What running a callable gives: it returns or raises, in a new state. *)
Inductive cb_result (App : Type) :=
| CbReturn (s : PyState App)
| CbRaise (e : exn) (s : PyState App).
Arguments CbReturn {App} s.
Arguments CbRaise {App} e s.

(** ** The monad of the methods *)

(** A method runs from a state and the calls made so far. It returns, raises
    (the state reached is kept: Python does not roll back), or the observer
    loop has not finished within the fuel given. *)
Inductive outcome (App A : Type) :=
| Done (a : A) (s : PyState App) (calls : list call)
| Raised (e : exn) (s : PyState App) (calls : list call)
| OutOfFuel.
Arguments Done {App A} a s calls.
Arguments Raised {App A} e s calls.
Arguments OutOfFuel {App A}.

Definition M (App A : Type) : Type := PyState App -> list call -> outcome App A.

#[global] Instance M_ret {App} : MRet (M App) :=
  fun A a s calls => Done a s calls.

#[global] Instance M_bind {App} : MBind (M App) :=
  fun A B k m s calls =>
    match m s calls with
    | Done a s' calls' => k a s' calls'
    | Raised e s' calls' => Raised e s' calls'
    | OutOfFuel => OutOfFuel
    end.

#[global] Instance M_throw {App} : MThrow exn (M App) :=
  fun A e s calls => Raised e s calls.

(** The state a run ended in, when it ended. *)
Definition final_state {App A} (r : outcome App A) : option (PyState App) :=
  match r with
  | Done _ s _ | Raised _ s _ => Some s
  | OutOfFuel => None
  end.

Definition final_calls {App A} (r : outcome App A) : option (list call) :=
  match r with
  | Done _ _ calls | Raised _ _ calls => Some calls
  | OutOfFuel => None
  end.

(** What a run returned, when it returned. *)
Definition returned_value {App A} (r : outcome App A) : option A :=
  match r with
  | Done a _ _ => Some a
  | Raised _ _ _ | OutOfFuel => None
  end.

Section Primitives.
Context {App : Type}.

(** Read a field: [self._impl.f]. *)
Definition read {A} (f : _GuiHandleState -> A) : M App A :=
  fun s calls => Done (f (_impl s)) s calls.

(** Assign a field: [self._impl.f = x]. *)
Definition assign (upd : _GuiHandleState -> _GuiHandleState) : M App unit :=
  fun s calls => Done tt (with_impl (upd (_impl s)) s) calls.

(** Modelled from the spec: [MessageApi._queue], of [viser._message_api],
    which is not part of this development. The specification gives it as
    [queue(message)], which appends to the outbound queue and cannot fail
    observably. *)
Definition _queue (m : Message) : M App unit :=
  fun s calls => Done tt (with_outbox (outbox s ++ [m]) s) calls.

(** [time.time()]. *)
Definition time_time : M App float :=
  fun s calls => Done (clock s) s calls.

(** [assert b]. Assertions are taken as enabled (no [python -O]). *)
Definition py_assert (b : bool) : M App unit :=
  if b then mret tt else mthrow AssertionError.

(** A pure conversion that may raise. *)
Definition lift {A} (r : result A) : M App A :=
  match r with Ok a => mret a | Err e => mthrow e end.

(** [d[k]]. *)
Definition getitem (d : gmap string pyany) (k : string) : M App pyany :=
  match d !! k with Some x => mret x | None => mthrow (KeyError k) end.

(** [options[0]]. *)
Definition item0 (options : list string) : M App string :=
  match options with o :: _ => mret o | [] => mthrow IndexError end.
End Primitives.

(** ** The methods of [GuiHandle] and [GuiSelectHandle] *)

Section Methods.
Context `{PyText} {App : Type}.

(** The behaviour of the callables of the application: running [cb] from a
    state returns or raises, in a state of its choice (a callback holds the
    handle, so it may do to it whatever the methods can). *)
Variable run_cb : callable -> PyState App -> cb_result App.

(** [cb(self)] for an update callback. *)
Definition call_update (cb : callable) : M App unit :=
  fun s calls =>
    let calls' := calls ++ [CallUpdate cb (value (_impl s))] in
    match run_cb cb s with
    | CbReturn s' => Done tt s' calls'
    | CbRaise e s' => Raised e s' calls'
    end.

(** [self._impl.cleanup_cb()]. *)
Definition call_cleanup (cb : callable) : M App unit :=
  fun s calls =>
    let calls' := calls ++ [CallCleanup cb] in
    match run_cb cb s with
    | CbReturn s' => Done tt s' calls'
    | CbRaise e s' => Raised e s' calls'
    end.

(** [for cb in self._impl.update_cb: cb(self)], from index [i]. Python's list
    iterator reads the list as it is at each step, so a callback registered
    by a callback runs in the same round, and a round need not end: hence
    the fuel. *)
Fixpoint for_update_cb (fuel i : nat) : M App unit :=
  match fuel with
  | O => fun _ _ => OutOfFuel
  | S fuel' =>
      cbs ← read update_cb;
      match cbs !! i with
      | None => mret tt
      | Some cb => call_update cb ;; for_update_cb fuel' (S i)
      end
  end.

(** [on_update]: returns [func]. *)
Definition on_update (func : callable) : M App callable :=
  cbs ← read update_cb;
  assign (with_update_cb (cbs ++ [func])) ;;
  mret func.

Definition get_value : M App pyval := read value.

Definition get_update_timestamp : M App float := read last_updated.

(** [set_value]. The method returns the handle; the embedding has one handle
    and returns nothing. *)
Definition set_value (fuel : nat) (arg : pyval + ndarray) : M App unit :=
  v ← lift (normalize arg);
  button ← read is_button;
  (if negb button then
     n ← read name;
     enc ← read encoder;
     _queue (GuiSetValueMessage n (enc v))
   else mret tt) ;;
  old ← read value;
  v' ← lift (construct (type_of old) v);
  assign (with_value v') ;;
  now ← time_time;
  assign (with_last_updated now) ;;
  for_update_cb fuel 0.

(** [self._impl.leva_conf["settings"]["disabled"] = disabled]: the nested
    object must be there ([KeyError]) and take item assignment by a string
    key ([TypeError]). *)
Definition set_settings_disabled (disabled : bool) : M App unit :=
  conf ← read leva_conf;
  settings ← getitem conf "settings";
  match settings with
  | ADict d =>
      assign (with_leva_conf
                (<["settings" := ADict (<["disabled" := AVal (VBool disabled)]> d)]> conf))
  | ANone | AVal _ | AList _ => mthrow TypeError
  end.

(** [self._impl.api._queue(GuiSetLevaConfMessage(self._impl.name,
    self._impl.leva_conf))]. *)
Definition queue_leva_conf : M App unit :=
  n ← read name;
  conf ← read leva_conf;
  _queue (GuiSetLevaConfMessage n conf).

(** [set_disabled]. *)
Definition set_disabled (disabled : bool) : M App unit :=
  button ← read is_button;
  if button : bool then
    set_settings_disabled disabled ;;
    queue_leva_conf
  else
    conf ← read leva_conf;
    assign (with_leva_conf (<["disabled" := AVal (VBool disabled)]> conf)) ;;
    queue_leva_conf.

(** [set_hidden]. *)
Definition set_hidden (hidden : bool) : M App unit :=
  n ← read name;
  _queue (GuiSetHiddenMessage n hidden).

(** [remove]. Past the assertion the callback is there; calling [None] would
    be a [TypeError]. *)
Definition remove : M App unit :=
  n ← read name;
  _queue (GuiRemoveMessage n) ;;
  cb ← read cleanup_cb;
  py_assert (bool_decide (is_Some cb)) ;;
  match cb with
  | Some f => call_cleanup f
  | None => mthrow TypeError
  end.

(** [GuiSelectHandle.set_options]. *)
Definition set_options (fuel : nat) (options : list string) : M App unit :=
  conf ← read leva_conf;
  assign (with_leva_conf (<["options" := AList ((fun o => AVal (VStr o)) <$> options)]> conf)) ;;
  conf ← read leva_conf;
  current ← getitem conf "value";
  overwrite_value ←
    (if negb (py_in current options) then
       o ← item0 options;
       conf ← read leva_conf;
       assign (with_leva_conf (<["value" := AVal (VStr o)]> conf)) ;;
       mret true
     else mret false);
  queue_leva_conf ;;
  if overwrite_value : bool then
    o ← item0 options;
    set_value fuel (inl (VStr o))
  else mret tt.

(** ** Vocabulary of the statements *)

(** A callback is passive when it returns and leaves the handle state and
    the message queue as they were (it may read the handle, keep state of
    its own in the application, and let time pass). *)
Definition passive (cb : callable) : Prop :=
  ∀ s, ∃ s', run_cb cb s = CbReturn s'
             ∧ _impl s' = _impl s ∧ outbox s' = outbox s.

Definition observers_passive (s : PyState App) : Prop :=
  ∀ cb, cb ∈ update_cb (_impl s) → passive cb.

(** The state a callback ends in, returning or raising. *)
Definition result_state (r : cb_result App) : PyState App :=
  match r with CbReturn s | CbRaise _ s => s end.

(** A callback keeps the configuration when it does not write [leva_conf],
    whatever else it does (raise, set the value, register callbacks). *)
Definition keeps_conf (cb : callable) : Prop :=
  ∀ s, leva_conf (_impl (result_state (run_cb cb s))) = leva_conf (_impl s).

(** The calls one round of the observer loop makes: every registered
    callback once, in registration order, each seeing the stored value. *)
Definition round (i : _GuiHandleState) : list call :=
  (fun cb => CallUpdate cb (value i)) <$> update_cb i.

(** The SetValue message of [set_value]: none for a button. *)
Definition value_message (i : _GuiHandleState) (v : pyval) : list Message :=
  if is_button i then [] else [GuiSetValueMessage (name i) (encoder i v)].

(** The SetDisplayConfig message for the configuration of [i]. *)
Definition conf_message (i : _GuiHandleState) : Message :=
  GuiSetLevaConfMessage (name i) (leva_conf i).

(** The state with the messages [ms] appended to the queue. *)
Definition queued (ms : list Message) (s : PyState App) : PyState App :=
  with_outbox (outbox s ++ ms) s.

(** The state [set_value] hands to the observers: the message queued (none
    for a button), then [v'] and the time stored. *)
Definition stored (v v' : pyval) (s : PyState App) : PyState App :=
  with_impl (with_last_updated (clock s) (with_value v' (_impl s)))
    (queued (value_message (_impl s) v) s).

(** The configuration after [leva_conf["options"] = options]. *)
Definition options_conf (options : list string) (conf : gmap string pyany)
  : gmap string pyany :=
  <["options" := AList ((fun o => AVal (VStr o)) <$> options)]> conf.

(** The configuration after the repair [leva_conf["value"] = options[0]]. *)
Definition repaired_conf (o : string) (options : list string)
    (conf : gmap string pyany) : gmap string pyany :=
  <["value" := AVal (VStr o)]> (options_conf options conf).

(** The configuration after [leva_conf["disabled"] = disabled]. *)
Definition disabled_conf (disabled : bool) (conf : gmap string pyany)
  : gmap string pyany :=
  <["disabled" := AVal (VBool disabled)]> conf.

(** The configuration of a button after
    [leva_conf["settings"]["disabled"] = disabled], [d] being its settings. *)
Definition settings_disabled_conf (disabled : bool) (d conf : gmap string pyany)
  : gmap string pyany :=
  <["settings" := ADict (<["disabled" := AVal (VBool disabled)]> d)]> conf.

(** A callback fails with [e] when it raises [e] and has left the handle
    state and the message queue as they were. *)
Definition fails_with (cb : callable) (e : exn) : Prop :=
  ∀ s, ∃ s', run_cb cb s = CbRaise e s'
             ∧ _impl s' = _impl s ∧ outbox s' = outbox s.

(** A callback registers when it returns with more update callbacks than it
    found ([on_update] called from the callback). *)
Definition registers (cb : callable) : Prop :=
  ∀ s, ∃ s', run_cb cb s = CbReturn s'
             ∧ length (update_cb (_impl s)) < length (update_cb (_impl s')).

(** The value field of the configuration mirrors the stored value, as it
    does when the control is made. *)
Definition in_sync (i : _GuiHandleState) : Prop :=
  leva_conf i !! "value" = Some (AVal (value i)).

(** The options as [set_options] writes them into the configuration. *)
Definition options_entry (options : list string) : pyany :=
  AList ((fun o => AVal (VStr o)) <$> options).

End Methods.

(** ** Example controls *)

(** Text conversions for the closed examples, none of which reaches one. *)
Definition no_text : PyText :=
  {| py_str := fun _ => EmptyString;
     py_float_of_str := fun _ => None;
     py_int_of_str := fun _ => None |}.

(** Callbacks that return at once. *)
Definition quiet : callable -> PyState unit -> cb_result unit :=
  fun _ s => CbReturn s.

(** Callbacks of which number 3 raises. *)
Definition raising : callable -> PyState unit -> cb_result unit :=
  fun cb s =>
    if Nat.eqb cb 3 then CbRaise (Exception "observer failed") s else CbReturn s.

(** Callbacks that register themselves once more each time they run
    ([on_update] called from the callback). *)
Definition growing : callable -> PyState unit -> cb_result unit :=
  fun cb s =>
    CbReturn (with_impl (with_update_cb (update_cb (_impl s) ++ [cb]) (_impl s)) s).

Definition decode_value (x : pyany) : pyval :=
  match x with AVal v => v | _ => VBool false end.

(** A dropdown with the options a, b, c, showing b, with one observer. *)
Definition dropdown : _GuiHandleState := {|
  name := "mode";
  typ := TStr;
  value := VStr "b";
  last_updated := 1%float;
  folder_labels := [];
  update_cb := [7];
  leva_conf :=
    <["value" := AVal (VStr "b")]>
      (<["options" := AList [AVal (VStr "a"); AVal (VStr "b"); AVal (VStr "c")]]>
         (<["label" := AVal (VStr "mode")]> ∅));
  is_button := false;
  sync_cb := None;
  cleanup_cb := Some 9;
  encoder := AVal;
  decoder := decode_value;
|}.

(** A 3-vector input at the origin, with two observers. *)
Definition vector3 : _GuiHandleState := {|
  name := "position";
  typ := TTuple;
  value := VTuple [VFloat 0; VFloat 0; VFloat 0];
  last_updated := 1%float;
  folder_labels := [];
  update_cb := [3; 4];
  leva_conf :=
    <["value" := AVal (VTuple [VFloat 0; VFloat 0; VFloat 0])]>
      (<["label" := AVal (VStr "position")]> ∅);
  is_button := false;
  sync_cb := None;
  cleanup_cb := Some 9;
  encoder := AVal;
  decoder := decode_value;
|}.

(** A number input showing 0.5, never wired with a cleanup callback. *)
Definition number : _GuiHandleState := {|
  name := "gain";
  typ := TFloat;
  value := VFloat 0.5;
  last_updated := 1%float;
  folder_labels := [];
  update_cb := [];
  leva_conf :=
    <["value" := AVal (VFloat 0.5)]> (<["label" := AVal (VStr "gain")]> ∅);
  is_button := false;
  sync_cb := None;
  cleanup_cb := None;
  encoder := AVal;
  decoder := decode_value;
|}.

(** A button, with one observer. *)
Definition button : _GuiHandleState := {|
  name := "reset";
  typ := TBool;
  value := VBool false;
  last_updated := 1%float;
  folder_labels := [];
  update_cb := [5];
  leva_conf :=
    <["type" := AVal (VStr "BUTTON")]>
      (<["settings" := ADict (<["disabled" := AVal (VBool false)]> ∅)]> ∅);
  is_button := true;
  sync_cb := None;
  cleanup_cb := Some 9;
  encoder := AVal;
  decoder := decode_value;
|}.

(** The state of a program holding the control [i], at time [t], with an
    empty queue. *)
Definition at_time (t : float) (i : _GuiHandleState) : PyState unit :=
  {| _impl := i; outbox := []; clock := t; app_state := tt |}.

(** A 2 by 2 matrix, a vector of three elements and an array without
    dimension. *)
Definition matrix22 : ndarray :=
  {| shape := [2; 2]; data := [NpFloat 1; NpFloat 2; NpFloat 3; NpFloat 4] |}.

Definition array123 : ndarray :=
  {| shape := [3]; data := [NpFloat 1; NpFloat 2; NpFloat 3] |}.

Definition array1 : ndarray :=
  {| shape := [1]; data := [NpFloat 1] |}.

(** The dropdown after [set_value("c")] at time 2: the stored value is c, the
    value field of the configuration is still b. *)
Definition dropdown_at_c : _GuiHandleState :=
  with_last_updated 2 (with_value (VStr "c") dropdown).

(** A slider at 0.0 with two observers. *)
Definition slider : _GuiHandleState := {|
  name := "speed";
  typ := TFloat;
  value := VFloat 0;
  last_updated := 1%float;
  folder_labels := [];
  update_cb := [1; 2];
  leva_conf :=
    <["value" := AVal (VFloat 0)]> (<["label" := AVal (VStr "speed")]> ∅);
  is_button := false;
  sync_cb := None;
  cleanup_cb := Some 9;
  encoder := AVal;
  decoder := decode_value;
|}.

(** A button whose configuration lost its settings, and one whose settings
    are no dictionary. *)
Definition button_without_settings : _GuiHandleState :=
  with_leva_conf (<["type" := AVal (VStr "BUTTON")]> ∅) button.

Definition button_with_odd_settings : _GuiHandleState :=
  with_leva_conf (<["settings" := AList []]> (leva_conf button)) button.

(** An array without dimension, as [onp.array(1.0)] makes it. *)
Definition array0 : ndarray :=
  {| shape := []; data := [NpFloat 1] |}.

(** The dropdown after [set_disabled(True)]. *)
Definition disabled_dropdown : _GuiHandleState :=
  with_leva_conf (disabled_conf true (leva_conf dropdown)) dropdown.

(** ** Running the methods *)

(** Unfolds the monadic operations of a method, leaving maps, lists and the
    call of [set_value] inside [set_options] as they are. *)
Ltac run_method :=
  repeat progress
    (unfold mbind, M_bind, mret, M_ret, mthrow, M_throw, read, assign, getitem,
       queue_leva_conf, _queue, item0, lift, py_assert, time_time;
     cbn -[set_value fmap insert lookup]).

Section Theory.
Context `{PyText} {App : Type}.
Variable run_cb : callable -> PyState App -> cb_result App.

Lemma bind_done {A B} (m : M App A) (k : A → M App B) a s calls s' calls' :
  m s calls = Done a s' calls' → (m ≫= k) s calls = k a s' calls'.
Proof. unfold mbind, M_bind. by intros ->. Qed.

Lemma bind_raised {A B} (m : M App A) (k : A → M App B) e s calls s' calls' :
  m s calls = Raised e s' calls' → (m ≫= k) s calls = Raised e s' calls'.
Proof. unfold mbind, M_bind. by intros ->. Qed.

(** *** Conversions that cannot raise *)

Lemma construct_same_type v : construct (type_of v) v = Ok v.
Proof. by destruct v. Qed.

(** A conversion gives a value of the type converted to. *)
Lemma construct_type T v v' : construct T v = Ok v' → type_of v' = T.
Proof.
  destruct T, v; cbn; intros Hc; try (by injection Hc as <-); try done.
  - destruct (int_of_float f); [by injection Hc as <-|done].
  - destruct (py_int_of_str s); [by injection Hc as <-|done].
  - destruct (float_of_int z); [by injection Hc as <-|done].
  - destruct (py_float_of_str s); [by injection Hc as <-|done].
Qed.

Lemma construct_bool v : construct TBool v = Ok (VBool (truthy v)).
Proof. done. Qed.

Lemma construct_str s v :
  type_of v = TStr → construct (type_of v) (VStr s) = Ok (VStr s).
Proof. by intros ->. Qed.

Lemma construct_tuple items v :
  type_of v = TTuple → construct (type_of v) (VTuple items) = Ok (VTuple items).
Proof. by intros ->. Qed.

Lemma normalize_array_1d n a :
  shape a = [n] →
  normalize (inr a) = Ok (VTuple ((fun x => VFloat (float_of_npscalar x)) <$> data a)).
Proof. intros Hs. unfold normalize. by rewrite Hs. Qed.

Lemma normalize_array_0d a :
  shape a = [] → normalize (inr a) = Err TypeError.
Proof. intros Hs. unfold normalize. by rewrite Hs. Qed.

Lemma normalize_array_rank2 a :
  2 ≤ length (shape a) → normalize (inr a) = Err AssertionError.
Proof.
  intros Hr. unfold normalize. rewrite bool_decide_eq_false_2; [done|lia].
Qed.

Lemma py_in_str s options : py_in (AVal (VStr s)) options = bool_decide (s ∈ options).
Proof. done. Qed.

(** *** The observer loop *)

Lemma call_update_passive cb s calls :
  passive run_cb cb →
  ∃ s', call_update run_cb cb s calls
          = Done tt s' (calls ++ [CallUpdate cb (value (_impl s))])
        ∧ _impl s' = _impl s ∧ outbox s' = outbox s.
Proof.
  intros Hcb. destruct (Hcb s) as (s' & Hrun & Hi & Ho).
  exists s'. unfold call_update. by rewrite Hrun.
Qed.

(** With passive observers the loop ends within [length update_cb + 1]
    steps, has called the observers from index [i] on, in order, each once,
    and has changed neither the handle state nor the queue. *)
Lemma for_update_cb_passive fuel : ∀ i s calls,
  observers_passive run_cb s →
  length (update_cb (_impl s)) - i < fuel →
  ∃ s', for_update_cb run_cb fuel i s calls
          = Done tt s' (calls ++ drop i (round (_impl s)))
        ∧ _impl s' = _impl s ∧ outbox s' = outbox s.
Proof.
  induction fuel as [|fuel IH]; intros i s calls Hp Hlen; [lia|].
  cbn [for_update_cb].
  rewrite (bind_done _ _ (update_cb (_impl s)) s calls s calls) by done.
  destruct (update_cb (_impl s) !! i) as [cb|] eqn:Hi.
  - assert (passive run_cb cb) as Hcb by (apply Hp; by eapply list_elem_of_lookup_2).
    destruct (call_update_passive cb s calls Hcb) as (s1 & Hcall & Hi1 & Ho1).
    rewrite (bind_done _ _ _ _ _ _ _ Hcall).
    destruct (IH (S i) s1 (calls ++ [CallUpdate cb (value (_impl s))]))
      as (s2 & Hloop & Hi2 & Ho2).
    { intros cb' Hin. apply Hp. by rewrite <-Hi1. }
    { rewrite Hi1. apply lookup_lt_Some in Hi. lia. }
    exists s2. rewrite Hloop, Hi1. split; [|by rewrite Hi2, Ho2].
    f_equal. rewrite <-app_assoc. f_equal.
    unfold round. rewrite (drop_S _ (CallUpdate cb (value (_impl s))) i); [done|].
    by rewrite list_lookup_fmap, Hi.
  - exists s. split; [|done]. unfold round.
    apply lookup_ge_None in Hi.
    rewrite drop_ge by (rewrite length_fmap; lia).
    by rewrite app_nil_r.
Qed.

(** Whatever the observers do, if none of the callbacks writes the
    configuration, the loop ends (when it does) with the configuration it
    started from. *)
Lemma for_update_cb_keeps_conf fuel : ∀ i s calls s',
  (∀ cb, keeps_conf run_cb cb) →
  final_state (for_update_cb run_cb fuel i s calls) = Some s' →
  leva_conf (_impl s') = leva_conf (_impl s).
Proof.
  induction fuel as [|fuel IH]; intros i s calls s' Hk Hfin; [done|].
  cbn [for_update_cb] in Hfin.
  rewrite (bind_done _ _ (update_cb (_impl s)) s calls s calls) in Hfin by done.
  destruct (update_cb (_impl s) !! i) as [cb|]; [|by injection Hfin as <-].
  specialize (Hk cb) as Hcb. specialize (Hcb s).
  unfold mbind, M_bind, call_update in Hfin.
  destruct (run_cb cb s) as [s1|e s1]; cbn in Hcb.
  - rewrite <-Hcb. by eapply IH.
  - injection Hfin as <-. done.
Qed.

(** *** [set_value] *)

(** A rejected argument: nothing has happened. *)
Lemma set_value_rejected fuel arg e s calls :
  normalize arg = Err e →
  set_value run_cb fuel arg s calls = Raised e s calls.
Proof. intros Hn. unfold set_value. by rewrite Hn. Qed.

(** The conversion to the type of the stored value raises: the message is
    already in the queue, the handle state is as before. *)
Lemma set_value_construct_raises fuel arg v e s calls :
  normalize arg = Ok v →
  construct (type_of (value (_impl s))) v = Err e →
  set_value run_cb fuel arg s calls
    = Raised e (queued (value_message (_impl s) v) s) calls.
Proof.
  intros Hn Hc. unfold set_value. rewrite Hn.
  unfold queued, value_message, mbind, M_bind, read, assign, _queue; cbn.
  destruct s as [i q c a]; cbn in *.
  destruct (is_button i); cbn; rewrite Hc; cbn; [by rewrite app_nil_r|done].
Qed.

(** Nothing raises before the observers: they run in the state [stored]. *)
Lemma set_value_stores fuel arg v v' s calls :
  normalize arg = Ok v →
  construct (type_of (value (_impl s))) v = Ok v' →
  set_value run_cb fuel arg s calls
    = for_update_cb run_cb fuel 0 (stored v v' s) calls.
Proof.
  intros Hn Hc. unfold set_value. rewrite Hn.
  unfold stored, queued, value_message, mbind, M_bind, read, assign, _queue, time_time; cbn.
  destruct s as [i q c a]; cbn in *.
  destruct (is_button i); cbn; rewrite Hc; cbn; [by rewrite app_nil_r|done].
Qed.

(** Nothing raises and the observers are passive. *)
Lemma set_value_ok fuel arg v v' s calls :
  normalize arg = Ok v →
  construct (type_of (value (_impl s))) v = Ok v' →
  observers_passive run_cb s →
  length (update_cb (_impl s)) < fuel →
  ∃ s', set_value run_cb fuel arg s calls
          = Done tt s' (calls ++ ((fun cb => CallUpdate cb v') <$> update_cb (_impl s)))
        ∧ _impl s' = with_last_updated (clock s) (with_value v' (_impl s))
        ∧ outbox s' = outbox s ++ value_message (_impl s) v.
Proof.
  intros Hn Hc Hp Hfuel.
  rewrite (set_value_stores fuel arg v v' s calls Hn Hc).
  destruct (for_update_cb_passive fuel 0 (stored v v' s) calls) as (s' & Hloop & Hi & Ho).
  { intros cb Hin. by apply Hp. }
  { cbn. lia. }
  exists s'. rewrite drop_0 in Hloop. by rewrite Hloop, Hi, Ho.
Qed.

(** Whatever the argument, with passive observers [set_value] ends, with the
    configuration it started from and at most its own message queued. *)
Lemma set_value_final fuel arg s calls :
  observers_passive run_cb s →
  length (update_cb (_impl s)) < fuel →
  ∃ s', final_state (set_value run_cb fuel arg s calls) = Some s'
        ∧ leva_conf (_impl s') = leva_conf (_impl s)
        ∧ name (_impl s') = name (_impl s)
        ∧ outbox s' = outbox s ++ match normalize arg with
                                   | Ok v => value_message (_impl s) v
                                   | Err _ => []
                                   end.
Proof.
  intros Hp Hfuel. destruct (normalize arg) as [v|e] eqn:Hn.
  - destruct (construct (type_of (value (_impl s))) v) as [v'|e] eqn:Hc.
    + destruct (set_value_ok fuel arg v v' s calls Hn Hc Hp Hfuel)
        as (s' & Hrun & Hi & Ho).
      exists s'. rewrite Hrun, Hi. by repeat split.
    + rewrite (set_value_construct_raises fuel arg v e s calls Hn Hc).
      eexists. by repeat split.
  - rewrite (set_value_rejected fuel arg e s calls Hn).
    exists s. repeat split; try done. by rewrite app_nil_r.
Qed.

(** [set_value] has no write of its own to the configuration. *)
Lemma set_value_keeps_conf fuel arg s calls s' :
  (∀ cb, keeps_conf run_cb cb) →
  final_state (set_value run_cb fuel arg s calls) = Some s' →
  leva_conf (_impl s') = leva_conf (_impl s).
Proof.
  intros Hk. destruct (normalize arg) as [v|e] eqn:Hn.
  - destruct (construct (type_of (value (_impl s))) v) as [v'|e] eqn:Hc.
    + rewrite (set_value_stores fuel arg v v' s calls Hn Hc). intros Hfin.
      by rewrite (for_update_cb_keeps_conf fuel 0 _ calls s' Hk Hfin).
    + rewrite (set_value_construct_raises fuel arg v e s calls Hn Hc).
      by intros [= <-].
  - rewrite (set_value_rejected fuel arg e s calls Hn). by intros [= <-].
Qed.

(** *** [set_options] *)

Lemma options_conf_value options conf :
  options_conf options conf !! "value" = conf !! "value".
Proof. unfold options_conf. by rewrite lookup_insert_ne. Qed.

Lemma repaired_conf_value o options conf :
  repaired_conf o options conf !! "value" = Some (AVal (VStr o)).
Proof. unfold repaired_conf. by rewrite lookup_insert_eq. Qed.

(** The value field of the configuration is among the options: one
    configuration message, and no repair. *)
Lemma set_options_keeps fuel options x s calls :
  leva_conf (_impl s) !! "value" = Some x →
  py_in x options = true →
  let i' := with_leva_conf (options_conf options (leva_conf (_impl s))) (_impl s) in
  set_options run_cb fuel options s calls
    = Done tt (queued [conf_message i'] (with_impl i' s)) calls.
Proof.
  intros Hx Hin i'. unfold set_options. run_method.
  rewrite lookup_insert_ne, Hx by done. run_method. by rewrite Hin.
Qed.

(** The value field of the configuration is not among the options, of
    which [o] is the first: the field is overwritten, the configuration is
    queued, and [set_value] runs from there. *)
Lemma set_options_repairs fuel o rest x s calls :
  leva_conf (_impl s) !! "value" = Some x →
  py_in x (o :: rest) = false →
  let i' := with_leva_conf (repaired_conf o (o :: rest) (leva_conf (_impl s))) (_impl s) in
  set_options run_cb fuel (o :: rest) s calls
    = set_value run_cb fuel (inl (VStr o)) (queued [conf_message i'] (with_impl i' s)) calls.
Proof.
  intros Hx Hin i'. unfold set_options. run_method.
  rewrite lookup_insert_ne, Hx by done. run_method. by rewrite Hin.
Qed.

(** No option to repair with: [options[0]] raises, with the options already
    written and nothing queued. *)
Lemma set_options_empty fuel x s calls :
  leva_conf (_impl s) !! "value" = Some x →
  set_options run_cb fuel [] s calls
    = Raised IndexError
        (with_impl (with_leva_conf (options_conf [] (leva_conf (_impl s))) (_impl s)) s)
        calls.
Proof.
  intros Hx. unfold set_options. run_method.
  rewrite lookup_insert_ne, Hx by done. run_method.
  assert (py_in x [] = false) as ->; [|done].
  by destruct x as [|[]| |].
Qed.

(** No value field in the configuration: a [KeyError], with the options
    already written and nothing queued. *)
Lemma set_options_no_value fuel options s calls :
  leva_conf (_impl s) !! "value" = None →
  set_options run_cb fuel options s calls
    = Raised (KeyError "value")
        (with_impl (with_leva_conf (options_conf options (leva_conf (_impl s))) (_impl s)) s)
        calls.
Proof.
  intros Hx. unfold set_options. run_method.
  by rewrite lookup_insert_ne, Hx by done.
Qed.

(** While the value field of the configuration mirrors the stored value (as
    it does until the first [set_value]), a stored value outside the new
    options is repaired: the configuration message, then the value message
    with the first option, which is stored, and one round of the observers. *)
Lemma set_options_in_sync_repairs fuel o rest cur s calls :
  is_button (_impl s) = false →
  value (_impl s) = VStr cur →
  leva_conf (_impl s) !! "value" = Some (AVal (VStr cur)) →
  cur ∉ o :: rest →
  observers_passive run_cb s →
  length (update_cb (_impl s)) < fuel →
  ∃ s', set_options run_cb fuel (o :: rest) s calls
          = Done tt s' (calls ++ ((fun cb => CallUpdate cb (VStr o)) <$> update_cb (_impl s)))
        ∧ value (_impl s') = VStr o
        ∧ last_updated (_impl s') = clock s
        ∧ outbox s' = outbox s
            ++ [GuiSetLevaConfMessage (name (_impl s))
                  (repaired_conf o (o :: rest) (leva_conf (_impl s)));
                GuiSetValueMessage (name (_impl s)) (encoder (_impl s) (VStr o))].
Proof.
  intros Hb Hv Hx Hin Hp Hfuel.
  rewrite (set_options_repairs fuel o rest (AVal (VStr cur)) s calls Hx)
    by (rewrite py_in_str; by apply bool_decide_eq_false_2).
  set (i' := with_leva_conf _ _). set (s1 := queued _ _).
  destruct (set_value_ok fuel (inl (VStr o)) (VStr o) (VStr o) s1 calls)
    as (s' & Hrun & Hi & Ho); try done.
  { cbn. by rewrite Hv. }
  exists s'. rewrite Hrun, Hi, Ho. repeat split; try done.
  unfold value_message; cbn. rewrite Hb. by rewrite <-app_assoc.
Qed.

(** While the value field mirrors the stored value, a stored value among the
    new options stays: one configuration message, and nothing else. *)
Lemma set_options_in_sync_keeps fuel options cur s calls :
  value (_impl s) = VStr cur →
  leva_conf (_impl s) !! "value" = Some (AVal (VStr cur)) →
  cur ∈ options →
  ∃ s', set_options run_cb fuel options s calls = Done tt s' calls
        ∧ value (_impl s') = value (_impl s)
        ∧ last_updated (_impl s') = last_updated (_impl s)
        ∧ outbox s' = outbox s
            ++ [GuiSetLevaConfMessage (name (_impl s))
                  (options_conf options (leva_conf (_impl s)))].
Proof.
  intros Hv Hx Hin.
  rewrite (set_options_keeps fuel options (AVal (VStr cur)) s calls Hx)
    by (rewrite py_in_str; by apply bool_decide_eq_true_2).
  eexists. by repeat split.
Qed.

(** *** [set_disabled] *)

(** On a control that is no button: the top-level field, and one message. *)
Lemma set_disabled_top_level b (s : PyState App) calls :
  is_button (_impl s) = false →
  let i' := with_leva_conf (disabled_conf b (leva_conf (_impl s))) (_impl s) in
  set_disabled b s calls = Done tt (queued [conf_message i'] (with_impl i' s)) calls.
Proof. intros Hb i'. unfold set_disabled. run_method. by rewrite Hb. Qed.

(** On a button with its settings: the nested field, and one message. *)
Lemma set_disabled_nested b d (s : PyState App) calls :
  is_button (_impl s) = true →
  leva_conf (_impl s) !! "settings" = Some (ADict d) →
  let i' := with_leva_conf (settings_disabled_conf b d (leva_conf (_impl s))) (_impl s) in
  set_disabled b s calls = Done tt (queued [conf_message i'] (with_impl i' s)) calls.
Proof.
  intros Hb Hd i'. unfold set_disabled, set_settings_disabled. run_method.
  rewrite Hb. run_method. by rewrite Hd.
Qed.

(** On a button without settings: a [KeyError], and nothing queued. *)
Lemma set_disabled_no_settings b (s : PyState App) calls :
  is_button (_impl s) = true →
  leva_conf (_impl s) !! "settings" = None →
  set_disabled b s calls = Raised (KeyError "settings") s calls.
Proof.
  intros Hb Hd. unfold set_disabled, set_settings_disabled. run_method.
  rewrite Hb. run_method. by rewrite Hd.
Qed.

(** *** [remove] *)

Lemma remove_calls_cleanup cb (s : PyState App) calls :
  cleanup_cb (_impl s) = Some cb →
  remove run_cb s calls
    = call_cleanup run_cb cb (queued [GuiRemoveMessage (name (_impl s))] s) calls.
Proof. intros Hcb. unfold remove. run_method. by rewrite Hcb. Qed.

Lemma remove_asserts (s : PyState App) calls :
  cleanup_cb (_impl s) = None →
  remove run_cb s calls
    = Raised AssertionError (queued [GuiRemoveMessage (name (_impl s))] s) calls.
Proof. intros Hcb. unfold remove. run_method. by rewrite Hcb. Qed.

End Theory.

(** ** The properties of the methods *)

Section Properties.
Context `{PyText} {App : Type}.
Variable run_cb : callable -> PyState App -> cb_result App.

(** C3, as the code has it: when [set_options] repairs (the value field of the
    configuration is not among the new options, of which [o] is the first),
    on a control that is no button and with passive observers, the call ends
    with exactly two more messages in the queue: the SetDisplayConfig
    message, whose configuration already has the repaired value [o] in its
    value field, then the SetValue message with the encoded [o]. The
    configuration of the handle is the one the message holds, also at the
    end. *)
Theorem set_options_repair_messages fuel o rest x s calls :
  leva_conf (_impl s) !! "value" = Some x →
  py_in x (o :: rest) = false →
  is_button (_impl s) = false →
  observers_passive run_cb s →
  length (update_cb (_impl s)) < fuel →
  ∃ s' conf,
    final_state (set_options run_cb fuel (o :: rest) s calls) = Some s'
    ∧ outbox s' = outbox s
        ++ [GuiSetLevaConfMessage (name (_impl s)) conf;
            GuiSetValueMessage (name (_impl s)) (encoder (_impl s) (VStr o))]
    ∧ conf !! "value" = Some (AVal (VStr o))
    ∧ leva_conf (_impl s') = conf.
Proof.
  intros Hx Hin Hb Hp Hfuel.
  rewrite (set_options_repairs run_cb fuel o rest x s calls Hx Hin).
  set (i' := with_leva_conf _ _). set (s1 := queued _ _).
  destruct (set_value_final run_cb fuel (inl (VStr o)) s1 calls)
    as (s' & Hfin & Hconf & Hname & Hout); [done..|].
  exists s', (repaired_conf o (o :: rest) (leva_conf (_impl s))).
  split; [done|]. split; [|split].
  - rewrite Hout. cbn. unfold value_message. cbn. rewrite Hb.
    by rewrite <-app_assoc.
  - apply repaired_conf_value.
  - by rewrite Hconf.
Qed.

(** C4: [set_value] never writes the Leva configuration. Whatever its
    argument and however it ends, returning or raising, the configuration is
    the one before the call, provided no callback writes it (callbacks may
    do anything else). In particular the value field of the configuration is
    not updated, while (the observers being passive) the call ends with the
    converted argument as the stored value: the field, which [set_options]
    reads for its membership test, goes stale. *)
Theorem set_value_keeps_leva_conf fuel arg s calls :
  (∀ cb, keeps_conf run_cb cb) →
  (∀ s', final_state (set_value run_cb fuel arg s calls) = Some s' →
         leva_conf (_impl s') = leva_conf (_impl s))
  ∧ (observers_passive run_cb s →
     length (update_cb (_impl s)) < fuel →
     ∃ s', final_state (set_value run_cb fuel arg s calls) = Some s'
           ∧ leva_conf (_impl s') !! "value" = leva_conf (_impl s) !! "value"
           ∧ ∀ v v', normalize arg = Ok v →
                     construct (type_of (value (_impl s))) v = Ok v' →
                     value (_impl s') = v').
Proof.
  intros Hk. split.
  - intros s'. by apply set_value_keeps_conf.
  - intros Hp Hfuel.
    destruct (set_value_final run_cb fuel arg s calls Hp Hfuel)
      as (s' & Hfin & Hconf & _ & _).
    exists s'. split; [done|]. split; [by rewrite Hconf|].
    intros v v' Hn Hc.
    destruct (set_value_ok run_cb fuel arg v v' s calls Hn Hc Hp Hfuel)
      as (s2 & Hrun & Hi & _).
    rewrite Hrun in Hfin. injection Hfin as <-. by rewrite Hi.
Qed.

(** C5, as the code has it: for every argument [set_value] accepts (a value, or
    an array of one dimension, made a tuple of floats) whose conversion to the
    type of the stored value is defined, [get_value()] after [set_value]
    returns the converted argument, which has the type of the value stored
    before, and [get_update_timestamp()] the time of the call (the observers
    being passive). The conversion is defined, and is the identity, whenever
    the argument has the type of the stored value ([construct_same_type]);
    that covers an array on a control holding a tuple. *)
Theorem set_value_then_get_value fuel arg v v' s calls :
  normalize arg = Ok v →
  construct (type_of (value (_impl s))) v = Ok v' →
  observers_passive run_cb s →
  length (update_cb (_impl s)) < fuel →
  ∃ s' calls',
    (set_value run_cb fuel arg ;; get_value) s calls = Done v' s' calls'
    ∧ get_update_timestamp s' calls' = Done (clock s) s' calls'
    ∧ type_of v' = type_of (value (_impl s))
    ∧ (type_of v = type_of (value (_impl s)) → v' = v).
Proof.
  intros Hn Hc Hp Hfuel.
  destruct (set_value_ok run_cb fuel arg v v' s calls Hn Hc Hp Hfuel)
    as (s' & Hrun & Hi & _).
  exists s', (calls ++ ((fun cb => CallUpdate cb v') <$> update_cb (_impl s))).
  split; [|split; [|split]].
  - rewrite (bind_done _ _ _ _ _ _ _ Hrun). unfold get_value, read. by rewrite Hi.
  - unfold get_update_timestamp, read. by rewrite Hi.
  - by eapply construct_type.
  - intros Ht. rewrite <-Ht, construct_same_type in Hc. by injection Hc.
Qed.

(** C6: on a button, [set_value] queues nothing, however it ends, and still
    stores the converted value, sets the timestamp to the time of the call
    and calls every registered observer, once each and in registration order,
    with the new value (for an accepted argument whose conversion to the type
    of the stored value is defined, as every conversion to [bool] is; the
    observers being passive). *)
Theorem set_value_button fuel arg s calls :
  is_button (_impl s) = true →
  observers_passive run_cb s →
  length (update_cb (_impl s)) < fuel →
  (∃ s', final_state (set_value run_cb fuel arg s calls) = Some s'
         ∧ outbox s' = outbox s)
  ∧ ∀ v v', normalize arg = Ok v →
            construct (type_of (value (_impl s))) v = Ok v' →
            ∃ s', set_value run_cb fuel arg s calls
                    = Done tt s'
                        (calls ++ ((fun cb => CallUpdate cb v') <$> update_cb (_impl s)))
                  ∧ outbox s' = outbox s
                  ∧ value (_impl s') = v'
                  ∧ last_updated (_impl s') = clock s.
Proof.
  intros Hb Hp Hfuel.
  assert (∀ v, value_message (_impl s) v = []) as Hmsg
    by (intros v; unfold value_message; by rewrite Hb).
  split.
  - destruct (set_value_final run_cb fuel arg s calls Hp Hfuel)
      as (s' & Hfin & _ & _ & Ho).
    exists s'. split; [done|]. rewrite Ho.
    destruct (normalize arg); [rewrite Hmsg|]; apply app_nil_r.
  - intros v v' Hn Hc.
    destruct (set_value_ok run_cb fuel arg v v' s calls Hn Hc Hp Hfuel)
      as (s' & Hrun & Hi & Ho).
    exists s'. rewrite Hrun, Hi, Ho, Hmsg. repeat split. apply app_nil_r.
Qed.

(** C7: [set_value] with an array of two or more dimensions fails at once
    (the assertion): the state is the one before the call (stored value,
    timestamp, configuration and queue alike) and no callback has been
    called. *)
Theorem set_value_rank2_rejected fuel a s calls :
  2 ≤ length (shape a) →
  set_value run_cb fuel (inr a) s calls = Raised AssertionError s calls.
Proof.
  intros Hrank. unfold set_value.
  rewrite normalize_array_rank2 by done. reflexivity.
Qed.

(** C8: [remove] on a control with a cleanup callback queues the Remove
    message and then calls that callback, once: every run has exactly that
    one call more, and when the callback is passive the run returns with
    exactly the Remove message more in the queue. Without a cleanup callback
    [remove] raises an [AssertionError]. *)
Theorem remove_runs_cleanup_once s calls :
  match cleanup_cb (_impl s) with
  | Some cb =>
      remove run_cb s calls
        = call_cleanup run_cb cb (queued [GuiRemoveMessage (name (_impl s))] s) calls
      ∧ final_calls (remove run_cb s calls) = Some (calls ++ [CallCleanup cb])
      ∧ (passive run_cb cb →
         ∃ s', remove run_cb s calls = Done tt s' (calls ++ [CallCleanup cb])
               ∧ outbox s' = outbox s ++ [GuiRemoveMessage (name (_impl s))])
  | None =>
      ∃ s', remove run_cb s calls = Raised AssertionError s' calls
  end.
Proof.
  destruct (cleanup_cb (_impl s)) as [cb|] eqn:Hcb.
  - rewrite (remove_calls_cleanup run_cb cb s calls Hcb).
    split; [done|]. unfold call_cleanup. split.
    + by destruct (run_cb cb _).
    + intros Hpassive.
      destruct (Hpassive (queued [GuiRemoveMessage (name (_impl s))] s))
        as (s' & Hrun & _ & Ho).
      exists s'. by rewrite Hrun, Ho.
  - eexists. by apply remove_asserts.
Qed.

(** C9: on a control that is no button, [set_disabled(True)] then
    [set_disabled(False)] returns with the top-level field ["disabled"] of
    the configuration false and with exactly two more messages in the queue,
    both SetDisplayConfig, one of each call. On a button (with its settings)
    each call writes the field ["disabled"] of the nested ["settings"]
    instead, leaves the top level alone and queues one message. *)
Theorem set_disabled_twice (s : PyState App) calls :
  (is_button (_impl s) = false →
   ∃ s', (set_disabled true ;; set_disabled false) s calls = Done tt s' calls
         ∧ leva_conf (_impl s') !! "disabled" = Some (AVal (VBool false))
         ∧ leva_conf (_impl s') = disabled_conf false (leva_conf (_impl s))
         ∧ outbox s' = outbox s
             ++ [GuiSetLevaConfMessage (name (_impl s))
                   (disabled_conf true (leva_conf (_impl s)));
                 GuiSetLevaConfMessage (name (_impl s))
                   (disabled_conf false (leva_conf (_impl s)))])
  ∧ (is_button (_impl s) = true →
     ∀ b d, leva_conf (_impl s) !! "settings" = Some (ADict d) →
     ∃ s', set_disabled b s calls = Done tt s' calls
           ∧ leva_conf (_impl s') !! "settings"
               = Some (ADict (<["disabled" := AVal (VBool b)]> d))
           ∧ leva_conf (_impl s') !! "disabled" = leva_conf (_impl s) !! "disabled"
           ∧ outbox s' = outbox s
               ++ [GuiSetLevaConfMessage (name (_impl s)) (leva_conf (_impl s'))]).
Proof.
  split.
  - intros Hb.
    assert (disabled_conf false (disabled_conf true (leva_conf (_impl s)))
            = disabled_conf false (leva_conf (_impl s))) as Hconf
      by apply insert_insert_eq.
    eexists. split.
    { erewrite bind_done by (by apply set_disabled_top_level).
      by apply set_disabled_top_level. }
    unfold queued, conf_message, with_impl, with_outbox, with_leva_conf;
      cbn -[disabled_conf].
    rewrite Hconf. repeat split.
    + unfold disabled_conf. by rewrite lookup_insert_eq.
    + by rewrite <-app_assoc.
  - intros Hb b d Hd. eexists. split; [by apply (set_disabled_nested b d)|].
    unfold queued, conf_message, with_impl, with_outbox, with_leva_conf; cbn.
    unfold settings_disabled_conf. repeat split.
    + by rewrite lookup_insert_eq.
    + by rewrite lookup_insert_ne.
Qed.

(** C10: [remove] on a control without cleanup callback raises its
    [AssertionError] with the Remove message already queued: the queue is
    not the one before the call, the handle state is. *)
Theorem remove_without_cleanup s calls :
  cleanup_cb (_impl s) = None →
  ∃ s', remove run_cb s calls = Raised AssertionError s' calls
        ∧ outbox s' = outbox s ++ [GuiRemoveMessage (name (_impl s))]
        ∧ outbox s' ≠ outbox s
        ∧ _impl s' = _impl s.
Proof.
  intros Hcb. eexists. split; [by apply remove_asserts|].
  unfold queued, with_outbox; cbn. repeat split.
  intros Heq. apply (f_equal length) in Heq.
  rewrite length_app in Heq. cbn in Heq. lia.
Qed.

End Properties.

(** ** Further properties of the methods *)

Section Further.
Context `{PyText} {App : Type}.
Variable run_cb : callable -> PyState App -> cb_result App.

(** *** The observer loop, when an observer raises or registers *)

Lemma drop_cons_lookup {A} (l : list A) i x rest :
  drop i l = x :: rest → l !! i = Some x ∧ drop (S i) l = rest.
Proof.
  intros Hd.
  assert (l !! i = Some x) as Hi.
  { rewrite <-(Nat.add_0_r i), <-lookup_drop. by rewrite Hd. }
  split; [done|]. rewrite (drop_S _ _ _ Hi) in Hd. by injection Hd.
Qed.

(** The observers before the one that raises are called, then that one, and
    the loop ends there. *)
Lemma for_update_cb_fails pre : ∀ fuel i s calls cb e post,
  (∀ c, c ∈ pre → passive run_cb c) →
  fails_with run_cb cb e →
  drop i (update_cb (_impl s)) = pre ++ cb :: post →
  length pre < fuel →
  ∃ s', for_update_cb run_cb fuel i s calls
          = Raised e s'
              (calls ++ ((fun c => CallUpdate c (value (_impl s))) <$> pre)
                     ++ [CallUpdate cb (value (_impl s))])
        ∧ _impl s' = _impl s ∧ outbox s' = outbox s.
Proof.
  induction pre as [|c pre IH]; intros fuel i s calls cb e post Hp Hcb Hd Hfuel;
    (destruct fuel as [|fuel]; [cbn in Hfuel; lia|]);
    cbn [for_update_cb];
    rewrite (bind_done _ _ (update_cb (_impl s)) s calls s calls) by done;
    apply drop_cons_lookup in Hd as [Hi Hd]; rewrite Hi.
  - destruct (Hcb s) as (s' & Hrun & His & Hos).
    exists s'. unfold mbind, M_bind, call_update. rewrite Hrun. by cbn.
  - assert (passive run_cb c) as Hc by (apply Hp; apply list_elem_of_here).
    destruct (call_update_passive run_cb c s calls Hc) as (s1 & Hcall & Hi1 & Ho1).
    rewrite (bind_done _ _ _ _ _ _ _ Hcall).
    destruct (IH fuel (S i) s1 (calls ++ [CallUpdate c (value (_impl s))]) cb e post)
      as (s2 & Hloop & Hi2 & Ho2).
    { intros c' Hin. apply Hp. by apply list_elem_of_further. }
    { done. }
    { by rewrite Hi1. }
    { cbn in Hfuel. lia. }
    exists s2. rewrite Hloop, Hi1. split; [|by rewrite Hi2, Ho2].
    f_equal. cbn. by rewrite <-!app_assoc.
Qed.

(** When every callback registers, the loop never reaches the end of the
    list. *)
Lemma for_update_cb_registers fuel : ∀ i s calls,
  (∀ cb, registers run_cb cb) →
  i < length (update_cb (_impl s)) →
  for_update_cb run_cb fuel i s calls = OutOfFuel.
Proof.
  induction fuel as [|fuel IH]; intros i s calls Hr Hi; [done|].
  cbn [for_update_cb].
  rewrite (bind_done _ _ (update_cb (_impl s)) s calls s calls) by done.
  destruct (lookup_lt_is_Some_2 _ _ Hi) as [cb ->].
  destruct (Hr cb s) as (s' & Hrun & Hlen).
  unfold mbind, M_bind, call_update. rewrite Hrun.
  apply IH; [done|lia].
Qed.

(** A button whose settings are no dictionary: a [TypeError], and nothing
    has happened. *)
Lemma set_disabled_odd_settings b x (s : PyState App) calls :
  is_button (_impl s) = true →
  leva_conf (_impl s) !! "settings" = Some x →
  (∀ d, x ≠ ADict d) →
  set_disabled b s calls = Raised TypeError s calls.
Proof.
  intros Hb Hx Hd. unfold set_disabled, set_settings_disabled. run_method.
  rewrite Hb. run_method. rewrite Hx. run_method.
  destruct x as [| | |d]; try done. by destruct (Hd d).
Qed.

(** *** [set_value] *)

(** X1: on its normal path [set_value] queues one SetValue message (none on a
    button) with the encoding of the argument as normalized, before
    conversion; stores the converted value and the time; calls every
    registered observer once, in registration order, each with the new
    value; and leaves the observers and the configuration as they were. *)
Theorem set_value_notifies_in_order fuel arg v v' s calls :
  normalize arg = Ok v →
  construct (type_of (value (_impl s))) v = Ok v' →
  observers_passive run_cb s →
  length (update_cb (_impl s)) < fuel →
  ∃ s', set_value run_cb fuel arg s calls
          = Done tt s' (calls ++ ((fun cb => CallUpdate cb v') <$> update_cb (_impl s)))
        ∧ outbox s' = outbox s
            ++ (if is_button (_impl s) then []
                else [GuiSetValueMessage (name (_impl s)) (encoder (_impl s) v)])
        ∧ value (_impl s') = v'
        ∧ last_updated (_impl s') = clock s
        ∧ update_cb (_impl s') = update_cb (_impl s)
        ∧ leva_conf (_impl s') = leva_conf (_impl s).
Proof.
  intros Hn Hc Hp Hfuel.
  destruct (set_value_ok run_cb fuel arg v v' s calls Hn Hc Hp Hfuel)
    as (s' & Hrun & Hi & Ho).
  exists s'. by rewrite Hrun, Hi, Ho.
Qed.

(** X2: [on_update] returns its argument and appends it to the observers,
    without looking for it there: the next [set_value] calls the observers
    registered before, then the new one (again, if it was registered
    already). *)
Theorem on_update_registers_last f fuel arg v v' s calls :
  normalize arg = Ok v →
  construct (type_of (value (_impl s))) v = Ok v' →
  observers_passive run_cb s →
  passive run_cb f →
  S (length (update_cb (_impl s))) < fuel →
  ∃ s1 s',
    on_update f s calls = Done f s1 calls
    ∧ update_cb (_impl s1) = update_cb (_impl s) ++ [f]
    ∧ outbox s1 = outbox s
    ∧ (on_update f ;; set_value run_cb fuel arg) s calls
        = Done tt s'
            (calls ++ ((fun cb => CallUpdate cb v') <$> update_cb (_impl s))
                   ++ [CallUpdate f v'])
    ∧ update_cb (_impl s') = update_cb (_impl s) ++ [f].
Proof.
  intros Hn Hc Hp Hf Hfuel.
  pose (s1 := with_impl (with_update_cb (update_cb (_impl s) ++ [f]) (_impl s)) s).
  assert (on_update f s calls = Done f s1 calls) as Hon by done.
  destruct (set_value_ok run_cb fuel arg v v' s1 calls Hn Hc)
    as (s' & Hrun & Hi & _).
  { intros cb Hin. cbn in Hin. apply elem_of_app in Hin as [Hin|Hin].
    - by apply Hp.
    - apply list_elem_of_singleton in Hin as ->. done. }
  { cbn. rewrite length_app. cbn. lia. }
  exists s1, s'. split; [done|]. split; [done|]. split; [done|]. split.
  - rewrite (bind_done _ _ _ _ _ _ _ Hon), Hrun. cbn. by rewrite fmap_app.
  - by rewrite Hi.
Qed.

(** X3: when the conversion to the type of the stored value raises,
    [set_value] has already queued its message: the call raises with the
    SetValue message in the queue (on a control that is no button), and with
    the value, the timestamp and everything else in the handle state as
    before, no observer called. *)
Theorem set_value_conversion_failure fuel arg v e s calls :
  normalize arg = Ok v →
  construct (type_of (value (_impl s))) v = Err e →
  ∃ s', set_value run_cb fuel arg s calls = Raised e s' calls
        ∧ _impl s' = _impl s
        ∧ outbox s' = outbox s
            ++ (if is_button (_impl s) then []
                else [GuiSetValueMessage (name (_impl s)) (encoder (_impl s) v)]).
Proof.
  intros Hn Hc.
  rewrite (set_value_construct_raises run_cb fuel arg v e s calls Hn Hc).
  by eexists.
Qed.

(** X4: an array without dimension passes the assertion of [set_value] (it
    has at most one dimension) and then cannot be iterated: a [TypeError],
    in the state before the call, nothing queued and no observer called. *)
Theorem set_value_array_without_dimension fuel a s calls :
  shape a = [] →
  set_value run_cb fuel (inr a) s calls = Raised TypeError s calls.
Proof.
  intros Hs. apply set_value_rejected. by apply normalize_array_0d.
Qed.

(** X5: [set_value] keeps the type of the stored value, however it ends (the
    observers being passive): the value after the call has the type of the
    value before. *)
Theorem set_value_keeps_type fuel arg s calls :
  observers_passive run_cb s →
  length (update_cb (_impl s)) < fuel →
  ∃ s', final_state (set_value run_cb fuel arg s calls) = Some s'
        ∧ type_of (value (_impl s')) = type_of (value (_impl s)).
Proof.
  intros Hp Hfuel. destruct (normalize arg) as [v|e] eqn:Hn.
  - destruct (construct (type_of (value (_impl s))) v) as [v'|e] eqn:Hc.
    + destruct (set_value_ok run_cb fuel arg v v' s calls Hn Hc Hp Hfuel)
        as (s' & Hrun & Hi & _).
      exists s'. rewrite Hrun, Hi. split; [done|]. cbn. by eapply construct_type.
    + rewrite (set_value_construct_raises run_cb fuel arg v e s calls Hn Hc).
      by eexists.
  - rewrite (set_value_rejected run_cb fuel arg e s calls Hn). by eexists.
Qed.

(** X6: on a control holding a tuple, [set_value] stores an array of one
    dimension as the tuple of its elements made floats, whatever its length
    and the length of the tuple stored before: the length is not checked. *)
Theorem set_value_array_any_length fuel n a s calls :
  type_of (value (_impl s)) = TTuple →
  shape a = [n] →
  observers_passive run_cb s →
  length (update_cb (_impl s)) < fuel →
  ∃ s' items,
    final_state (set_value run_cb fuel (inr a) s calls) = Some s'
    ∧ value (_impl s') = VTuple items
    ∧ items = (fun x => VFloat (float_of_npscalar x)) <$> data a
    ∧ length items = length (data a)
    ∧ Forall (fun x => type_of x = TFloat) items.
Proof.
  intros Ht Hs Hp Hfuel.
  pose proof (normalize_array_1d n a Hs) as Hn.
  destruct (set_value_ok run_cb fuel (inr a) _ _ s calls Hn
              (construct_tuple _ _ Ht) Hp Hfuel) as (s' & Hrun & Hi & _).
  exists s', ((fun x => VFloat (float_of_npscalar x)) <$> data a).
  rewrite Hrun, Hi. repeat split.
  - apply length_fmap.
  - apply Forall_fmap, Forall_true. done.
Qed.

(** X7: setting the value the control already has ([set_value(get_value())])
    stores the same value, and still queues the SetValue message, sets the
    timestamp and calls the observers. *)
Theorem set_value_current_value fuel s calls :
  observers_passive run_cb s →
  length (update_cb (_impl s)) < fuel →
  ∃ s', set_value run_cb fuel (inl (value (_impl s))) s calls
          = Done tt s' (calls ++ round (_impl s))
        ∧ value (_impl s') = value (_impl s)
        ∧ last_updated (_impl s') = clock s
        ∧ outbox s' = outbox s ++ value_message (_impl s) (value (_impl s)).
Proof.
  intros Hp Hfuel.
  destruct (set_value_ok run_cb fuel (inl (value (_impl s))) _ _ s calls
              eq_refl (construct_same_type _) Hp Hfuel) as (s' & Hrun & Hi & Ho).
  exists s'. by rewrite Hrun, Hi, Ho.
Qed.

(** X8: a control holding a string or a boolean takes every accepted value:
    the conversion never raises, and what is stored is the string form or
    the truth value of the argument. *)
Theorem set_value_text_or_bool fuel arg v s calls :
  normalize arg = Ok v →
  type_of (value (_impl s)) = TStr ∨ type_of (value (_impl s)) = TBool →
  observers_passive run_cb s →
  length (update_cb (_impl s)) < fuel →
  ∃ s', returned_value (set_value run_cb fuel arg s calls) = Some tt
        ∧ final_state (set_value run_cb fuel arg s calls) = Some s'
        ∧ value (_impl s')
            = match type_of (value (_impl s)) with
              | TStr => VStr (match v with VStr t => t | _ => py_str v end)
              | _ => VBool (truthy v)
              end.
Proof.
  intros Hn Ht Hp Hfuel.
  assert (∃ v', construct (type_of (value (_impl s))) v = Ok v'
                ∧ v' = match type_of (value (_impl s)) with
                       | TStr => VStr (match v with VStr t => t | _ => py_str v end)
                       | _ => VBool (truthy v)
                       end) as (v' & Hc & Hv').
  { destruct Ht as [-> | ->]; by eexists. }
  destruct (set_value_ok run_cb fuel arg v v' s calls Hn Hc Hp Hfuel)
    as (s' & Hrun & Hi & _).
  exists s'. rewrite Hrun, Hi. by rewrite <-Hv'.
Qed.

(** X9: an observer that raises ends the round. The observers registered
    before it have been called, then it, and none after it; the exception
    leaves [set_value] with the message queued and the value and the time
    stored. *)
Theorem set_value_observer_raises fuel arg v v' pre cb e post s calls :
  normalize arg = Ok v →
  construct (type_of (value (_impl s))) v = Ok v' →
  update_cb (_impl s) = pre ++ cb :: post →
  (∀ c, c ∈ pre → passive run_cb c) →
  fails_with run_cb cb e →
  length pre < fuel →
  ∃ s', set_value run_cb fuel arg s calls
          = Raised e s'
              (calls ++ ((fun c => CallUpdate c v') <$> pre) ++ [CallUpdate cb v'])
        ∧ value (_impl s') = v'
        ∧ last_updated (_impl s') = clock s
        ∧ outbox s' = outbox s ++ value_message (_impl s) v.
Proof.
  intros Hn Hc Hcbs Hp Hcb Hfuel.
  rewrite (set_value_stores run_cb fuel arg v v' s calls Hn Hc).
  destruct (for_update_cb_fails pre fuel 0 (stored v v' s) calls cb e post Hp Hcb)
    as (s' & Hloop & Hi & Ho); [done|done|].
  exists s'. by rewrite Hloop, Hi, Ho.
Qed.

(** X10: when every callback registers a callback as it runs, a round of a
    control with an observer never ends: [set_value] does not return,
    whatever the fuel. *)
Theorem set_value_registering_observers fuel arg v v' s calls :
  normalize arg = Ok v →
  construct (type_of (value (_impl s))) v = Ok v' →
  update_cb (_impl s) ≠ [] →
  (∀ cb, registers run_cb cb) →
  set_value run_cb fuel arg s calls = OutOfFuel.
Proof.
  intros Hn Hc Hne Hr.
  rewrite (set_value_stores run_cb fuel arg v v' s calls Hn Hc).
  apply for_update_cb_registers; [done|].
  cbn. destruct (update_cb (_impl s)); [done|cbn; lia].
Qed.

(** *** [set_hidden] and [set_disabled] *)

(** X11: [set_hidden] and [set_disabled] are no updates of the value:
    however they end, the stored value, the timestamp and the observers are
    as before and no callback has been called. [set_hidden] always returns,
    with its one message queued and the whole handle state, the configuration
    included, as before. *)
Theorem hidden_and_disabled_keep_value b h (s : PyState App) calls :
  (∃ s', final_state (set_disabled b s calls) = Some s'
         ∧ final_calls (set_disabled b s calls) = Some calls
         ∧ value (_impl s') = value (_impl s)
         ∧ last_updated (_impl s') = last_updated (_impl s)
         ∧ update_cb (_impl s') = update_cb (_impl s))
  ∧ ∃ s', set_hidden h s calls = Done tt s' calls
          ∧ _impl s' = _impl s
          ∧ outbox s' = outbox s ++ [GuiSetHiddenMessage (name (_impl s)) h].
Proof.
  split; [|by eexists].
  destruct (is_button (_impl s)) eqn:Hb.
  - destruct (leva_conf (_impl s) !! "settings") as [x|] eqn:Hx.
    + destruct x as [|v|l|d].
      1-3: rewrite (set_disabled_odd_settings b _ s calls Hb Hx) by done;
           by eexists.
      rewrite (set_disabled_nested b d s calls Hb Hx). by eexists.
    + rewrite (set_disabled_no_settings b s calls Hb Hx). by eexists.
  - rewrite (set_disabled_top_level b s calls Hb). by eexists.
Qed.

(** X12: [set_disabled] on a button whose configuration has no dictionary
    under ["settings"] raises, a [KeyError] when the entry is missing and a
    [TypeError] when it is something else, in the state before the call: no
    message is queued. *)
Theorem set_disabled_button_without_settings b (s : PyState App) calls :
  is_button (_impl s) = true →
  match leva_conf (_impl s) !! "settings" with
  | None => set_disabled b s calls = Raised (KeyError "settings") s calls
  | Some (ADict d) => ∃ s', set_disabled b s calls = Done tt s' calls
  | Some _ => set_disabled b s calls = Raised TypeError s calls
  end.
Proof.
  intros Hb. destruct (leva_conf (_impl s) !! "settings") as [x|] eqn:Hx.
  - destruct x as [|v|l|d].
    1-3: by apply (set_disabled_odd_settings b _ s calls Hb Hx).
    rewrite (set_disabled_nested b d s calls Hb Hx). by eexists.
  - by apply set_disabled_no_settings.
Qed.

(** X13: [set_disabled] writes one entry and no other. Where it returns, on
    a control that is no button every entry of the configuration but
    ["disabled"] is as before; on a button every entry but ["settings"] is,
    and in the settings every entry but ["disabled"]. *)
Theorem set_disabled_keeps_other_entries b (s : PyState App) calls s' :
  set_disabled b s calls = Done tt s' calls →
  if is_button (_impl s) then
    (∀ k, k ≠ "settings" → leva_conf (_impl s') !! k = leva_conf (_impl s) !! k)
    ∧ ∃ d d', leva_conf (_impl s) !! "settings" = Some (ADict d)
              ∧ leva_conf (_impl s') !! "settings" = Some (ADict d')
              ∧ d' !! "disabled" = Some (AVal (VBool b))
              ∧ ∀ k, k ≠ "disabled" → d' !! k = d !! k
  else
    leva_conf (_impl s') !! "disabled" = Some (AVal (VBool b))
    ∧ ∀ k, k ≠ "disabled" → leva_conf (_impl s') !! k = leva_conf (_impl s) !! k.
Proof.
  destruct (is_button (_impl s)) eqn:Hb.
  - destruct (leva_conf (_impl s) !! "settings") as [x|] eqn:Hx.
    + destruct x as [|v|l|d].
      1-3: by rewrite (set_disabled_odd_settings b _ s calls Hb Hx).
      rewrite (set_disabled_nested b d s calls Hb Hx). intros [= <-].
      unfold queued, with_impl, with_outbox, with_leva_conf,
        settings_disabled_conf; cbn.
      split.
      * intros k Hk. by rewrite lookup_insert_ne.
      * exists d, (<["disabled" := AVal (VBool b)]> d).
        split; [done|]. split; [by rewrite lookup_insert_eq|].
        split; [by rewrite lookup_insert_eq|].
        intros k Hk. by rewrite lookup_insert_ne.
    + by rewrite (set_disabled_no_settings b s calls Hb Hx).
  - rewrite (set_disabled_top_level b s calls Hb). intros [= <-].
    unfold queued, with_impl, with_outbox, with_leva_conf, disabled_conf; cbn.
    split; [by rewrite lookup_insert_eq|].
    intros k Hk. by rewrite lookup_insert_ne.
Qed.

(** *** [set_options] *)

(** X14: [set_options] with no option, on a configuration with a value
    field: whatever the field holds it is not among no options, and
    [options[0]] raises an [IndexError]. By then the options of the
    configuration are overwritten with the empty list; nothing is queued, and
    the value field and the stored value are as before. *)
Theorem set_options_empty_raises fuel x s calls :
  leva_conf (_impl s) !! "value" = Some x →
  ∃ s', set_options run_cb fuel [] s calls = Raised IndexError s' calls
        ∧ outbox s' = outbox s
        ∧ leva_conf (_impl s') !! "options" = Some (options_entry [])
        ∧ leva_conf (_impl s') !! "value" = Some x
        ∧ value (_impl s') = value (_impl s).
Proof.
  intros Hx. rewrite (set_options_empty run_cb fuel x s calls Hx).
  eexists. split; [done|]. cbn. unfold options_conf, options_entry.
  split; [done|]. split; [by rewrite lookup_insert_eq|].
  split; [by rewrite lookup_insert_ne|done].
Qed.

(** X15: [set_options] on a configuration without value field raises a
    [KeyError] at its membership test. By then the options of the
    configuration are overwritten; nothing is queued. *)
Theorem set_options_without_value_field fuel options s calls :
  leva_conf (_impl s) !! "value" = None →
  ∃ s', set_options run_cb fuel options s calls = Raised (KeyError "value") s' calls
        ∧ outbox s' = outbox s
        ∧ leva_conf (_impl s') !! "options" = Some (options_entry options)
        ∧ value (_impl s') = value (_impl s).
Proof.
  intros Hx. rewrite (set_options_no_value run_cb fuel options s calls Hx).
  eexists. split; [done|]. cbn. unfold options_conf, options_entry.
  split; [done|]. split; [by rewrite lookup_insert_eq|done].
Qed.

(** X16: from a select whose configuration mirrors its stored value,
    [set_options] with at least one option returns with the stored value
    among the new options, the configuration holding the new options and
    mirroring the stored value again (the observers being passive). *)
Theorem set_options_restores_sync fuel o rest cur s calls :
  value (_impl s) = VStr cur →
  in_sync (_impl s) →
  observers_passive run_cb s →
  length (update_cb (_impl s)) < fuel →
  ∃ s' cur',
    returned_value (set_options run_cb fuel (o :: rest) s calls) = Some tt
    ∧ final_state (set_options run_cb fuel (o :: rest) s calls) = Some s'
    ∧ value (_impl s') = VStr cur'
    ∧ cur' ∈ o :: rest
    ∧ (cur ∈ o :: rest → cur' = cur)
    ∧ in_sync (_impl s')
    ∧ leva_conf (_impl s') !! "options" = Some (options_entry (o :: rest)).
Proof.
  intros Hv Hsync Hp Hfuel. unfold in_sync in Hsync. rewrite Hv in Hsync.
  destruct (decide (cur ∈ o :: rest)) as [Hin|Hin].
  - rewrite (set_options_keeps run_cb fuel (o :: rest) (AVal (VStr cur)) s calls Hsync)
      by (rewrite py_in_str; by apply bool_decide_eq_true_2).
    eexists _, cur. split; [done|]. split; [done|].
    unfold in_sync, queued, with_impl, with_outbox, with_leva_conf, options_conf; cbn.
    rewrite Hv. repeat split; try done.
    + by rewrite lookup_insert_ne.
    + by rewrite lookup_insert_eq.
  - rewrite (set_options_repairs run_cb fuel o rest (AVal (VStr cur)) s calls Hsync)
      by (rewrite py_in_str; by apply bool_decide_eq_false_2).
    set (i' := with_leva_conf _ _). set (s1 := queued _ _).
    destruct (set_value_ok run_cb fuel (inl (VStr o)) (VStr o) (VStr o) s1 calls)
      as (s' & Hrun & Hi & _); try done.
    { cbn. by rewrite Hv. }
    exists s', o. rewrite Hrun, Hi.
    unfold in_sync, repaired_conf, options_conf; cbn.
    repeat split; try done.
    + apply list_elem_of_here.
    + apply repaired_conf_value.
    + unfold repaired_conf, options_conf, options_entry.
      rewrite lookup_insert_ne by done. by rewrite lookup_insert_eq.
Qed.

(** X17: [set_options] writes the options and, to repair, the value field,
    and no other entry of the configuration: however it ends (the observers
    being passive), the options of the configuration are the new ones and
    every entry but ["options"] and ["value"] is as before. *)
Theorem set_options_keeps_other_entries fuel options s calls :
  observers_passive run_cb s →
  length (update_cb (_impl s)) < fuel →
  ∃ s', final_state (set_options run_cb fuel options s calls) = Some s'
        ∧ leva_conf (_impl s') !! "options" = Some (options_entry options)
        ∧ ∀ k, k ≠ "options" → k ≠ "value" →
               leva_conf (_impl s') !! k = leva_conf (_impl s) !! k.
Proof.
  intros Hp Hfuel.
  destruct (leva_conf (_impl s) !! "value") as [x|] eqn:Hx.
  - destruct (py_in x options) eqn:Hin.
    + rewrite (set_options_keeps run_cb fuel options x s calls Hx Hin).
      eexists. split; [done|].
      unfold queued, with_impl, with_outbox, with_leva_conf, options_conf; cbn.
      split; [by rewrite lookup_insert_eq|].
      intros k Hk _. by rewrite lookup_insert_ne.
    + destruct options as [|o rest].
      * rewrite (set_options_empty run_cb fuel x s calls Hx).
        eexists. split; [done|]. unfold options_conf; cbn.
        split; [by rewrite lookup_insert_eq|].
        intros k Hk _. by rewrite lookup_insert_ne.
      * rewrite (set_options_repairs run_cb fuel o rest x s calls Hx Hin).
        set (i' := with_leva_conf _ _). set (s1 := queued _ _).
        destruct (set_value_final run_cb fuel (inl (VStr o)) s1 calls)
          as (s' & Hfin & Hconf & _ & _); [done..|].
        exists s'. split; [done|]. rewrite Hconf. subst s1 i'.
        unfold queued, with_impl, with_outbox, with_leva_conf, repaired_conf,
          options_conf, options_entry; cbn -[insert lookup fmap].
        split.
        -- rewrite lookup_insert_ne by done. by rewrite lookup_insert_eq.
        -- intros k Hk Hk'. by rewrite !lookup_insert_ne.
  - rewrite (set_options_no_value run_cb fuel options s calls Hx).
    eexists. split; [done|]. unfold options_conf; cbn.
    split; [by rewrite lookup_insert_eq|].
    intros k Hk _. by rewrite lookup_insert_ne.
Qed.

(** *** [remove] *)

(** X18: [remove] keeps no record of the removal. With a passive cleanup
    callback it returns with the handle state as before, so a second
    [remove] does what the first did: two Remove messages are queued and the
    cleanup callback is called twice. *)
Theorem remove_twice cb s calls :
  cleanup_cb (_impl s) = Some cb →
  passive run_cb cb →
  (∃ s1, remove run_cb s calls = Done tt s1 (calls ++ [CallCleanup cb])
         ∧ _impl s1 = _impl s)
  ∧ ∃ s2, (remove run_cb ;; remove run_cb) s calls
            = Done tt s2 (calls ++ [CallCleanup cb; CallCleanup cb])
          ∧ outbox s2 = outbox s
              ++ [GuiRemoveMessage (name (_impl s)); GuiRemoveMessage (name (_impl s))].
Proof.
  intros Hcb Hpassive.
  assert (∀ s0 calls0, cleanup_cb (_impl s0) = Some cb →
            ∃ s1, remove run_cb s0 calls0 = Done tt s1 (calls0 ++ [CallCleanup cb])
                  ∧ _impl s1 = _impl s0
                  ∧ outbox s1 = outbox s0 ++ [GuiRemoveMessage (name (_impl s0))])
    as Hone.
  { intros s0 calls0 Hcb0.
    rewrite (remove_calls_cleanup run_cb cb s0 calls0 Hcb0). unfold call_cleanup.
    destruct (Hpassive (queued [GuiRemoveMessage (name (_impl s0))] s0))
      as (s1 & Hrun & Hi & Ho).
    exists s1. by rewrite Hrun, Hi, Ho. }
  destruct (Hone s calls Hcb) as (s1 & Hrun1 & Hi1 & Ho1).
  split; [by exists s1|].
  destruct (Hone s1 (calls ++ [CallCleanup cb])) as (s2 & Hrun2 & Hi2 & Ho2).
  { by rewrite Hi1. }
  exists s2. rewrite (bind_done _ _ _ _ _ _ _ Hrun1), Hrun2.
  split; [by rewrite <-app_assoc|].
  by rewrite Ho2, Ho1, Hi1, <-app_assoc.
Qed.

End Further.

(** ** The properties on the example controls *)

#[local] Existing Instance no_text.

Lemma quiet_passive cb : passive quiet cb.
Proof. intros s. by exists s. Qed.

Lemma quiet_observers s : observers_passive quiet s.
Proof. intros cb _. apply quiet_passive. Qed.

Lemma quiet_keeps_conf cb : keeps_conf quiet cb.
Proof. by intros s. Qed.

(** [set_value("c")] at time 2 takes the dropdown to [dropdown_at_c]. *)
Lemma dropdown_at_c_reached :
  set_value quiet 2 (inl (VStr "c")) (at_time 2 dropdown) []
  = Done tt
      (queued [GuiSetValueMessage "mode" (AVal (VStr "c"))] (at_time 2 dropdown_at_c))
      [CallUpdate 7 (VStr "c")].
Proof. vm_compute. reflexivity. Qed.

(** An observer that raises ends the round: the observers after it are not
    called, and the value and the timestamp are already stored. *)
Lemma observer_exception_stops_round :
  ∃ s', set_value raising 3 (inr array123) (at_time 3 vector3) []
          = Raised (Exception "observer failed") s'
              [CallUpdate 3 (VTuple [VFloat 1; VFloat 2; VFloat 3])]
        ∧ value (_impl s') = VTuple [VFloat 1; VFloat 2; VFloat 3]
        ∧ last_updated (_impl s') = 3%float.
Proof. eexists. split; [vm_compute; reflexivity|]. by split. Qed.

(** An observer that registers itself again keeps the loop going: no fuel
    is enough. *)
Lemma for_update_cb_growing fuel : ∀ i s calls,
  i < length (update_cb (_impl s)) →
  for_update_cb growing fuel i s calls = OutOfFuel.
Proof.
  induction fuel as [|fuel IH]; intros i s calls Hi; [done|].
  cbn [for_update_cb].
  rewrite (bind_done _ _ (update_cb (_impl s)) s calls s calls) by done.
  destruct (lookup_lt_is_Some_2 _ _ Hi) as [cb ->].
  unfold call_update, growing, mbind, M_bind. apply IH.
  cbn. rewrite length_app. cbn. lia.
Qed.

Lemma self_registering_observer_never_ends fuel :
  set_value growing fuel (inl (VStr "c")) (at_time 2 dropdown) [] = OutOfFuel.
Proof.
  unfold set_value. run_method. apply for_update_cb_growing. cbn. lia.
Qed.

(** C1: [set_options] decides the repair on the value field of the
    configuration, which [set_value] does not keep up to date, and not on
    the stored value. The dropdown (options a, b, c, showing b) is set to c
    and then given the options b, x. The stored value c is not among them,
    and yet [set_options] returns with the configuration message alone in
    the queue, no SetValue message, the stored value still c and not the first
    option b, and no observer called. *)
Theorem set_options_misses_stale_value :
  (∃ s0, set_value quiet 2 (inl (VStr "c")) (at_time 2 dropdown) []
           = Done tt s0 [CallUpdate 7 (VStr "c")]
         ∧ _impl s0 = dropdown_at_c)
  ∧ value dropdown_at_c = VStr "c"
  ∧ ("c" ∉ ["b"; "x"])
  ∧ leva_conf dropdown_at_c !! "value" = Some (AVal (VStr "b"))
  ∧ ∃ s', set_options quiet 2 ["b"; "x"] (at_time 3 dropdown_at_c) []
            = Done tt s' []
          ∧ value (_impl s') = VStr "c"
          ∧ outbox s'
              = [GuiSetLevaConfMessage "mode"
                   (options_conf ["b"; "x"] (leva_conf dropdown))]
          ∧ filter is_set_value (outbox s') = [].
Proof.
  split; [eexists; split; [apply dropdown_at_c_reached|reflexivity]|].
  split; [reflexivity|].
  split; [by apply (bool_decide_eq_false_1 _)|].
  split; [vm_compute; reflexivity|].
  eexists. split; [vm_compute; reflexivity|].
  repeat split; vm_compute; reflexivity.
Qed.

(** C2: the same defect, the other way. The dropdown set to c is given the
    options d, c. The stored value c is among them, and yet [set_options]
    (the value field of the configuration being b) queues a SetValue message
    after the configuration message, calls the observer, replaces the stored
    value by d and moves the timestamp from 2 to 3. *)
Theorem set_options_overwrites_valid_value :
  (∃ s0, set_value quiet 2 (inl (VStr "c")) (at_time 2 dropdown) []
           = Done tt s0 [CallUpdate 7 (VStr "c")]
         ∧ _impl s0 = dropdown_at_c)
  ∧ value dropdown_at_c = VStr "c"
  ∧ ("c" ∈ ["d"; "c"])
  ∧ leva_conf dropdown_at_c !! "value" = Some (AVal (VStr "b"))
  ∧ last_updated dropdown_at_c = 2%float
  ∧ ∃ s', set_options quiet 2 ["d"; "c"] (at_time 3 dropdown_at_c) []
            = Done tt s' [CallUpdate 7 (VStr "d")]
          ∧ outbox s'
              = [GuiSetLevaConfMessage "mode"
                   (repaired_conf "d" ["d"; "c"] (leva_conf dropdown));
                 GuiSetValueMessage "mode" (AVal (VStr "d"))]
          ∧ length (filter is_set_value (outbox s')) = 1
          ∧ value (_impl s') = VStr "d"
          ∧ last_updated (_impl s') = 3%float.
Proof.
  split; [eexists; split; [apply dropdown_at_c_reached|reflexivity]|].
  split; [reflexivity|].
  split; [by apply (bool_decide_eq_true_1 _)|].
  split; [vm_compute; reflexivity|]. split; [reflexivity|].
  eexists. split; [vm_compute; reflexivity|].
  repeat split; vm_compute; reflexivity.
Qed.

(** C3, against the specification, which has the SetDisplayConfig message
    of a repair carry the stale value field: the dropdown showing b is given
    the options x, y. [set_options] repairs, and the configuration of the
    SetDisplayConfig message it queues has x in its value field, the
    repaired value and not b, the one before the repair. *)
Lemma set_options_config_message_not_stale :
  leva_conf dropdown !! "value" = Some (AVal (VStr "b"))
  ∧ ∃ s' conf,
      set_options quiet 2 ["x"; "y"] (at_time 3 dropdown) []
        = Done tt s' [CallUpdate 7 (VStr "x")]
      ∧ outbox s' = [GuiSetLevaConfMessage "mode" conf;
                     GuiSetValueMessage "mode" (AVal (VStr "x"))]
      ∧ conf !! "value" = Some (AVal (VStr "x"))
      ∧ conf !! "value" ≠ leva_conf dropdown !! "value".
Proof.
  split; [vm_compute; reflexivity|].
  eexists _, (repaired_conf "x" ["x"; "y"] (leva_conf dropdown)).
  split; [vm_compute; reflexivity|].
  split; [vm_compute; reflexivity|].
  split; [vm_compute; reflexivity|].
  vm_compute. discriminate.
Qed.

Lemma set_options_repair_messages_witness :
  ∃ s' conf,
    final_state (set_options quiet 2 ["x"; "y"] (at_time 3 dropdown) []) = Some s'
    ∧ outbox s' = outbox (at_time 3 dropdown)
        ++ [GuiSetLevaConfMessage (name (_impl (at_time 3 dropdown))) conf;
            GuiSetValueMessage (name (_impl (at_time 3 dropdown)))
              (encoder (_impl (at_time 3 dropdown)) (VStr "x"))]
    ∧ conf !! "value" = Some (AVal (VStr "x"))
    ∧ leva_conf (_impl s') = conf.
Proof.
  apply (set_options_repair_messages quiet 2 "x" ["y"] (AVal (VStr "b"))
           (at_time 3 dropdown) []).
  - vm_compute; reflexivity.
  - vm_compute; reflexivity.
  - reflexivity.
  - apply quiet_observers.
  - cbn; lia.
Defined.

Lemma set_value_keeps_leva_conf_witness :
  (∀ s', final_state (set_value quiet 2 (inl (VStr "c")) (at_time 2 dropdown) []) = Some s' →
         leva_conf (_impl s') = leva_conf (_impl (at_time 2 dropdown)))
  ∧ ∃ s', final_state (set_value quiet 2 (inl (VStr "c")) (at_time 2 dropdown) []) = Some s'
          ∧ leva_conf (_impl s') !! "value" = leva_conf (_impl (at_time 2 dropdown)) !! "value"
          ∧ ∀ v v', normalize (inl (VStr "c")) = Ok v →
                    construct (type_of (value (_impl (at_time 2 dropdown)))) v = Ok v' →
                    value (_impl s') = v'.
Proof.
  split.
  - apply (set_value_keeps_leva_conf quiet 2 (inl (VStr "c")) (at_time 2 dropdown) []).
    apply quiet_keeps_conf.
  - apply (set_value_keeps_leva_conf quiet 2 (inl (VStr "c")) (at_time 2 dropdown) []).
    + apply quiet_keeps_conf.
    + apply quiet_observers.
    + cbn; lia.
Defined.

(** C5, against the specification, which has [get_value()] return the
    converted argument on every control for every array of one dimension:
    the number input showing 0.5 is given such an array. The argument is
    accepted and becomes the tuple (1.0,); the conversion [float((1.0,))]
    raises a [TypeError], after the SetValue message is queued.
    [get_value()] still gives 0.5 and the timestamp is the old one. *)
Lemma set_value_array_on_number_raises :
  normalize (inr array1) = Ok (VTuple [VFloat 1])
  ∧ construct (type_of (value number)) (VTuple [VFloat 1]) = Err TypeError
  ∧ ∃ s', (set_value quiet 2 (inr array1) ;; get_value) (at_time 3 number) []
            = Raised TypeError s' []
          ∧ outbox s' = [GuiSetValueMessage "gain" (AVal (VTuple [VFloat 1]))]
          ∧ get_value s' [] = Done (VFloat 0.5) s' []
          ∧ get_update_timestamp s' [] = Done 1%float s' [].
Proof.
  split; [reflexivity|]. split; [reflexivity|].
  eexists. split; [vm_compute; reflexivity|].
  repeat split; vm_compute; reflexivity.
Qed.

Lemma set_value_then_get_value_witness :
  ∃ s' calls',
    (set_value quiet 3 (inr array123) ;; get_value) (at_time 3 vector3) []
      = Done (VTuple [VFloat 1; VFloat 2; VFloat 3]) s' calls'
    ∧ get_update_timestamp s' calls' = Done (clock (at_time 3 vector3)) s' calls'
    ∧ type_of (VTuple [VFloat 1; VFloat 2; VFloat 3])
        = type_of (value (_impl (at_time 3 vector3)))
    ∧ (type_of (VTuple [VFloat 1; VFloat 2; VFloat 3])
         = type_of (value (_impl (at_time 3 vector3)))
       → VTuple [VFloat 1; VFloat 2; VFloat 3] = VTuple [VFloat 1; VFloat 2; VFloat 3]).
Proof.
  apply (set_value_then_get_value quiet 3 (inr array123)
           (VTuple [VFloat 1; VFloat 2; VFloat 3])
           (VTuple [VFloat 1; VFloat 2; VFloat 3]) (at_time 3 vector3) []).
  - reflexivity.
  - reflexivity.
  - apply quiet_observers.
  - cbn; lia.
Defined.

Lemma set_value_button_witness :
  (∃ s', final_state (set_value quiet 2 (inl (VBool true)) (at_time 3 button) []) = Some s'
         ∧ outbox s' = outbox (at_time 3 button))
  ∧ ∃ s', set_value quiet 2 (inl (VBool true)) (at_time 3 button) []
            = Done tt s'
                ([] ++ ((fun cb => CallUpdate cb (VBool true))
                          <$> update_cb (_impl (at_time 3 button))))
          ∧ outbox s' = outbox (at_time 3 button)
          ∧ value (_impl s') = VBool true
          ∧ last_updated (_impl s') = clock (at_time 3 button).
Proof.
  split.
  - apply (set_value_button quiet 2 (inl (VBool true)) (at_time 3 button) []).
    + reflexivity.
    + apply quiet_observers.
    + cbn; lia.
  - apply (set_value_button quiet 2 (inl (VBool true)) (at_time 3 button) []) with (v := VBool true).
    + reflexivity.
    + apply quiet_observers.
    + cbn; lia.
    + reflexivity.
    + reflexivity.
Defined.

Lemma set_value_rank2_rejected_witness :
  set_value quiet 3 (inr matrix22) (at_time 3 vector3) []
  = Raised AssertionError (at_time 3 vector3) [].
Proof.
  apply (set_value_rank2_rejected quiet 3 matrix22 (at_time 3 vector3) []).
  cbn; lia.
Defined.

Lemma remove_runs_cleanup_once_witness :
  (remove quiet (at_time 3 dropdown) []
     = call_cleanup quiet 9
         (queued [GuiRemoveMessage (name (_impl (at_time 3 dropdown)))] (at_time 3 dropdown)) []
   ∧ final_calls (remove quiet (at_time 3 dropdown) []) = Some ([] ++ [CallCleanup 9])
   ∧ ∃ s', remove quiet (at_time 3 dropdown) [] = Done tt s' ([] ++ [CallCleanup 9])
           ∧ outbox s' = outbox (at_time 3 dropdown)
               ++ [GuiRemoveMessage (name (_impl (at_time 3 dropdown)))])
  ∧ ∃ s', remove quiet (at_time 3 number) [] = Raised AssertionError s' [].
Proof.
  split.
  - destruct (remove_runs_cleanup_once quiet (at_time 3 dropdown) [])
      as (Hcall & Hcalls & Hdone).
    split; [exact Hcall|]. split; [exact Hcalls|].
    apply Hdone. apply quiet_passive.
  - exact (remove_runs_cleanup_once quiet (at_time 3 number) []).
Defined.

Lemma set_disabled_twice_witness :
  (∃ s', (set_disabled true ;; set_disabled false) (at_time 3 dropdown) [] = Done tt s' []
         ∧ leva_conf (_impl s') !! "disabled" = Some (AVal (VBool false))
         ∧ leva_conf (_impl s') = disabled_conf false (leva_conf (_impl (at_time 3 dropdown)))
         ∧ outbox s' = outbox (at_time 3 dropdown)
             ++ [GuiSetLevaConfMessage (name (_impl (at_time 3 dropdown)))
                   (disabled_conf true (leva_conf (_impl (at_time 3 dropdown))));
                 GuiSetLevaConfMessage (name (_impl (at_time 3 dropdown)))
                   (disabled_conf false (leva_conf (_impl (at_time 3 dropdown))))])
  ∧ (∃ s', set_disabled true (at_time 3 button) [] = Done tt s' []
           ∧ leva_conf (_impl s') !! "settings"
               = Some (ADict (<["disabled" := AVal (VBool true)]>
                                (<["disabled" := AVal (VBool false)]> ∅)))
           ∧ leva_conf (_impl s') !! "disabled"
               = leva_conf (_impl (at_time 3 button)) !! "disabled"
           ∧ outbox s' = outbox (at_time 3 button)
               ++ [GuiSetLevaConfMessage (name (_impl (at_time 3 button)))
                     (leva_conf (_impl s'))]).
Proof.
  split.
  - apply (proj1 (set_disabled_twice (at_time 3 dropdown) [])). reflexivity.
  - apply (proj2 (set_disabled_twice (at_time 3 button) [])
             eq_refl true (<["disabled" := AVal (VBool false)]> ∅)).
    vm_compute; reflexivity.
Defined.

Lemma remove_without_cleanup_witness :
  ∃ s', remove quiet (at_time 3 number) [] = Raised AssertionError s' []
        ∧ outbox s' = outbox (at_time 3 number)
            ++ [GuiRemoveMessage (name (_impl (at_time 3 number)))]
        ∧ outbox s' ≠ outbox (at_time 3 number)
        ∧ _impl s' = _impl (at_time 3 number).
Proof.
  apply (remove_without_cleanup quiet (at_time 3 number) []). reflexivity.
Defined.

(** ** The further properties on the example controls *)

Lemma raising_fails : fails_with raising 3 (Exception "observer failed").
Proof. intros s. by exists s. Qed.

Lemma growing_registers cb : registers growing cb.
Proof.
  intros s. eexists. split; [done|]. cbn. rewrite length_app. cbn. lia.
Qed.

Lemma set_value_notifies_in_order_witness :
  ∃ s', set_value quiet 3 (inl (VInt 3)) (at_time 3 slider) []
          = Done tt s'
              ([] ++ ((fun cb => CallUpdate cb (VFloat 3))
                        <$> update_cb (_impl (at_time 3 slider))))
        ∧ outbox s' = outbox (at_time 3 slider)
            ++ (if is_button (_impl (at_time 3 slider)) then []
                else [GuiSetValueMessage (name (_impl (at_time 3 slider)))
                        (encoder (_impl (at_time 3 slider)) (VInt 3))])
        ∧ value (_impl s') = VFloat 3
        ∧ last_updated (_impl s') = clock (at_time 3 slider)
        ∧ update_cb (_impl s') = update_cb (_impl (at_time 3 slider))
        ∧ leva_conf (_impl s') = leva_conf (_impl (at_time 3 slider)).
Proof.
  apply (set_value_notifies_in_order quiet 3 (inl (VInt 3)) (VInt 3) (VFloat 3)
           (at_time 3 slider) []).
  - reflexivity.
  - vm_compute; reflexivity.
  - apply quiet_observers.
  - cbn; lia.
Defined.

Lemma on_update_registers_last_witness :
  ∃ s1 s',
    on_update 7 (at_time 3 dropdown) [] = Done 7 s1 []
    ∧ update_cb (_impl s1) = update_cb (_impl (at_time 3 dropdown)) ++ [7]
    ∧ outbox s1 = outbox (at_time 3 dropdown)
    ∧ (on_update 7 ;; set_value quiet 3 (inl (VStr "c"))) (at_time 3 dropdown) []
        = Done tt s'
            ([] ++ ((fun cb => CallUpdate cb (VStr "c"))
                      <$> update_cb (_impl (at_time 3 dropdown)))
                ++ [CallUpdate 7 (VStr "c")])
    ∧ update_cb (_impl s') = update_cb (_impl (at_time 3 dropdown)) ++ [7].
Proof.
  apply (on_update_registers_last quiet 7 3 (inl (VStr "c")) (VStr "c") (VStr "c")
           (at_time 3 dropdown) []).
  - reflexivity.
  - reflexivity.
  - apply quiet_observers.
  - apply quiet_passive.
  - cbn; lia.
Defined.

Lemma set_value_conversion_failure_witness :
  ∃ s', set_value quiet 1 (inl (VTuple [])) (at_time 3 number) []
          = Raised TypeError s' []
        ∧ _impl s' = _impl (at_time 3 number)
        ∧ outbox s' = outbox (at_time 3 number)
            ++ (if is_button (_impl (at_time 3 number)) then []
                else [GuiSetValueMessage (name (_impl (at_time 3 number)))
                        (encoder (_impl (at_time 3 number)) (VTuple []))]).
Proof.
  apply (set_value_conversion_failure quiet 1 (inl (VTuple [])) (VTuple []) TypeError
           (at_time 3 number) []).
  - reflexivity.
  - reflexivity.
Defined.

Lemma set_value_array_without_dimension_witness :
  set_value quiet 3 (inr array0) (at_time 3 vector3) []
  = Raised TypeError (at_time 3 vector3) [].
Proof.
  apply (set_value_array_without_dimension quiet 3 array0 (at_time 3 vector3) []).
  reflexivity.
Defined.

Lemma set_value_keeps_type_witness :
  ∃ s', final_state (set_value quiet 3 (inl (VBool true)) (at_time 3 slider) []) = Some s'
        ∧ type_of (value (_impl s')) = type_of (value (_impl (at_time 3 slider))).
Proof.
  apply (set_value_keeps_type quiet 3 (inl (VBool true)) (at_time 3 slider) []).
  - apply quiet_observers.
  - cbn; lia.
Defined.

Lemma set_value_array_any_length_witness :
  ∃ s' items,
    final_state (set_value quiet 3 (inr array1) (at_time 3 vector3) []) = Some s'
    ∧ value (_impl s') = VTuple items
    ∧ items = (fun x => VFloat (float_of_npscalar x)) <$> data array1
    ∧ length items = length (data array1)
    ∧ Forall (fun x => type_of x = TFloat) items.
Proof.
  apply (set_value_array_any_length quiet 3 1 array1 (at_time 3 vector3) []).
  - reflexivity.
  - reflexivity.
  - apply quiet_observers.
  - cbn; lia.
Defined.

Lemma set_value_current_value_witness :
  ∃ s', set_value quiet 3 (inl (value (_impl (at_time 3 vector3)))) (at_time 3 vector3) []
          = Done tt s' ([] ++ round (_impl (at_time 3 vector3)))
        ∧ value (_impl s') = value (_impl (at_time 3 vector3))
        ∧ last_updated (_impl s') = clock (at_time 3 vector3)
        ∧ outbox s' = outbox (at_time 3 vector3)
            ++ value_message (_impl (at_time 3 vector3))
                 (value (_impl (at_time 3 vector3))).
Proof.
  apply (set_value_current_value quiet 3 (at_time 3 vector3) []).
  - apply quiet_observers.
  - cbn; lia.
Defined.

Lemma set_value_text_or_bool_witness :
  ∃ s', returned_value (set_value quiet 2 (inl (VStr "x")) (at_time 3 button) []) = Some tt
        ∧ final_state (set_value quiet 2 (inl (VStr "x")) (at_time 3 button) []) = Some s'
        ∧ value (_impl s')
            = match type_of (value (_impl (at_time 3 button))) with
              | TStr => VStr (match VStr "x" with VStr t => t | _ => py_str (VStr "x") end)
              | _ => VBool (truthy (VStr "x"))
              end.
Proof.
  apply (set_value_text_or_bool quiet 2 (inl (VStr "x")) (VStr "x") (at_time 3 button) []).
  - reflexivity.
  - right. reflexivity.
  - apply quiet_observers.
  - cbn; lia.
Defined.

Lemma set_value_observer_raises_witness :
  ∃ s', set_value raising 1 (inr array123) (at_time 3 vector3) []
          = Raised (Exception "observer failed") s'
              ([] ++ ((fun c => CallUpdate c (VTuple [VFloat 1; VFloat 2; VFloat 3])) <$> [])
                  ++ [CallUpdate 3 (VTuple [VFloat 1; VFloat 2; VFloat 3])])
        ∧ value (_impl s') = VTuple [VFloat 1; VFloat 2; VFloat 3]
        ∧ last_updated (_impl s') = clock (at_time 3 vector3)
        ∧ outbox s' = outbox (at_time 3 vector3)
            ++ value_message (_impl (at_time 3 vector3))
                 (VTuple [VFloat 1; VFloat 2; VFloat 3]).
Proof.
  apply (set_value_observer_raises raising 1 (inr array123)
           (VTuple [VFloat 1; VFloat 2; VFloat 3])
           (VTuple [VFloat 1; VFloat 2; VFloat 3])
           [] 3 (Exception "observer failed") [4] (at_time 3 vector3) []).
  - reflexivity.
  - reflexivity.
  - reflexivity.
  - intros c Hc. by apply elem_of_nil in Hc.
  - apply raising_fails.
  - cbn; lia.
Defined.

Lemma set_value_registering_observers_witness :
  set_value growing 1000 (inl (VStr "c")) (at_time 2 dropdown) [] = OutOfFuel.
Proof.
  apply (set_value_registering_observers growing 1000 (inl (VStr "c"))
           (VStr "c") (VStr "c") (at_time 2 dropdown) []).
  - reflexivity.
  - reflexivity.
  - discriminate.
  - apply growing_registers.
Defined.

Lemma set_disabled_button_without_settings_witness :
  set_disabled true (at_time 3 button_without_settings) []
    = Raised (KeyError "settings") (at_time 3 button_without_settings) []
  ∧ set_disabled true (at_time 3 button_with_odd_settings) []
    = Raised TypeError (at_time 3 button_with_odd_settings) []
  ∧ ∃ s', set_disabled true (at_time 3 button) [] = Done tt s' [].
Proof.
  split; [|split].
  - exact (set_disabled_button_without_settings true
             (at_time 3 button_without_settings) [] eq_refl).
  - exact (set_disabled_button_without_settings true
             (at_time 3 button_with_odd_settings) [] eq_refl).
  - exact (set_disabled_button_without_settings true (at_time 3 button) [] eq_refl).
Defined.

Lemma set_disabled_keeps_other_entries_witness :
  leva_conf (disabled_dropdown) !! "disabled" = Some (AVal (VBool true))
  ∧ ∀ k, k ≠ "disabled" →
         leva_conf disabled_dropdown !! k = leva_conf (_impl (at_time 3 dropdown)) !! k.
Proof.
  apply (set_disabled_keeps_other_entries true (at_time 3 dropdown) []
           (queued [conf_message disabled_dropdown]
              (with_impl disabled_dropdown (at_time 3 dropdown)))).
  reflexivity.
Defined.

Lemma set_options_empty_raises_witness :
  ∃ s', set_options quiet 2 [] (at_time 3 dropdown) [] = Raised IndexError s' []
        ∧ outbox s' = outbox (at_time 3 dropdown)
        ∧ leva_conf (_impl s') !! "options" = Some (options_entry [])
        ∧ leva_conf (_impl s') !! "value" = Some (AVal (VStr "b"))
        ∧ value (_impl s') = value (_impl (at_time 3 dropdown)).
Proof.
  apply (set_options_empty_raises quiet 2 (AVal (VStr "b")) (at_time 3 dropdown) []).
  vm_compute; reflexivity.
Defined.

Lemma set_options_without_value_field_witness :
  ∃ s', set_options quiet 2 ["a"] (at_time 3 button) []
          = Raised (KeyError "value") s' []
        ∧ outbox s' = outbox (at_time 3 button)
        ∧ leva_conf (_impl s') !! "options" = Some (options_entry ["a"])
        ∧ value (_impl s') = value (_impl (at_time 3 button)).
Proof.
  apply (set_options_without_value_field quiet 2 ["a"] (at_time 3 button) []).
  vm_compute; reflexivity.
Defined.

Lemma set_options_restores_sync_witness :
  ∃ s' cur',
    returned_value (set_options quiet 2 ["x"; "y"] (at_time 3 dropdown) []) = Some tt
    ∧ final_state (set_options quiet 2 ["x"; "y"] (at_time 3 dropdown) []) = Some s'
    ∧ value (_impl s') = VStr cur'
    ∧ cur' ∈ ["x"; "y"]
    ∧ ("b" ∈ ["x"; "y"] → cur' = "b")
    ∧ in_sync (_impl s')
    ∧ leva_conf (_impl s') !! "options" = Some (options_entry ["x"; "y"]).
Proof.
  apply (set_options_restores_sync quiet 2 "x" ["y"] "b" (at_time 3 dropdown) []).
  - reflexivity.
  - unfold in_sync. vm_compute; reflexivity.
  - apply quiet_observers.
  - cbn; lia.
Defined.

Lemma set_options_keeps_other_entries_witness :
  ∃ s', final_state (set_options quiet 2 ["x"; "y"] (at_time 3 dropdown) []) = Some s'
        ∧ leva_conf (_impl s') !! "options" = Some (options_entry ["x"; "y"])
        ∧ ∀ k, k ≠ "options" → k ≠ "value" →
               leva_conf (_impl s') !! k = leva_conf (_impl (at_time 3 dropdown)) !! k.
Proof.
  apply (set_options_keeps_other_entries quiet 2 ["x"; "y"] (at_time 3 dropdown) []).
  - apply quiet_observers.
  - cbn; lia.
Defined.

Lemma remove_twice_witness :
  (∃ s1, remove quiet (at_time 3 dropdown) [] = Done tt s1 ([] ++ [CallCleanup 9])
         ∧ _impl s1 = _impl (at_time 3 dropdown))
  ∧ ∃ s2, (remove quiet ;; remove quiet) (at_time 3 dropdown) []
            = Done tt s2 ([] ++ [CallCleanup 9; CallCleanup 9])
          ∧ outbox s2 = outbox (at_time 3 dropdown)
              ++ [GuiRemoveMessage (name (_impl (at_time 3 dropdown)));
                  GuiRemoveMessage (name (_impl (at_time 3 dropdown)))].
Proof.
  apply (remove_twice quiet 9 (at_time 3 dropdown) []).
  - reflexivity.
  - apply quiet_passive.
Defined.
